(** * Filament Sensor Universal: the debouncer, the poll loop and the print gate

    A shallow embedding of [octoprint_filamentsensoruniversal/__init__.py].

    - Timestamps ([time.time()]) are doubles, given by their exact
      rational values ([Q]).  The subtraction [now - _last_change_time]
      is the floating-point one: the exact difference, rounded; the
      rounding is a parameter ([round], [float_round] of the [Env]), and
      [round_double] is the rounding of binary64.  The comparison with
      the interval is exact, as Python compares a float with a number.
    - Everything the plugin calls but does not define (the clock, the GPIO
      lines of [gpiod], the printer, the logger) lives outside the model: an
      [Env] gives the answer of every external call, and the [World] keeps
      the trace of the calls made so far.  The k-th external call of a run
      is answered by the oracle at index k.
    - Python exceptions are results ([Raise]); the state reached when the
      exception is raised is kept, as in Python.  The integer settings
      are read with [int(...)], which raises on a value that is not a
      number.
    - Each method runs as one sequential piece; [with self._gpio_lock] is
      the identity on the state. *)

From Stdlib Require Import QArith Qround Qpower Lqa Bool List String Lia Arith.
Import ListNotations.

Local Open Scope Q_scope.

(** ** External world *)

(** A requested GPIO line: the chip it belongs to and its offset. *)
Record Line : Type := mkLine {
  chip_name : string;
  line_offset : Z
}.

(** Calls into [gpiod] other than [get_value]. *)
Inductive GpiodOp : Type :=
| Chip_open (name : string)
| Chip_get_line (name : string) (pin : Z)
| Line_request (l : Line)
| Line_set_direction_input (l : Line)
| Line_set_flags (l : Line) (bias_pull_up active_low : bool)
| Chip_close (l : Line).

Inductive LogLevel : Type := INFO | ERROR_LVL.

(** One entry per call that leaves the plugin. *)
Inductive Event : Type :=
| EvTime
| EvGetValue (l : Line)
| EvGpiod (op : GpiodOp)
| EvLog (lvl : LogLevel) (msg : string)
| EvPausePrint
| EvCancelPrint
| EvCommands (cmds : list string)
| EvSleep.

(** The exceptions: [OSError] from [gpiod], [PrinterException] for
    whatever a printer call raises, [ValueError] and [TypeError] from
    [int(...)] on a setting that is not a number. *)
Inductive exn : Type := OSError | PrinterException | ValueError | TypeError.

Inductive result (A : Type) : Type :=
| Ok (a : A)
| Raise (e : exn).
Arguments Ok {A} a.
Arguments Raise {A} e.

(** Answers of the external calls, by the index of the call in the trace. *)
Record Env : Type := mkEnv {
  clock : nat -> Q;                      (* time.time() *)
  line_level : Line -> nat -> option bool; (* line.get_value(); None: OSError *)
  gpiod_ok : nat -> bool;                (* false: the gpiod call raises OSError *)
  printer_ok : nat -> bool;              (* false: the printer call raises *)
  float_round : Q -> Q                   (* rounding of a float operation *)
}.

(** ** Debouncer *)

Record Debouncer : Type := mkDebouncer {
  line : Line;
  interval : Q;
  value : bool;
  rising : bool;
  falling : bool;
  _last_value : bool;
  _last_change_time : Q
}.

Definition set_value (v : bool) (self : Debouncer) : Debouncer :=
  mkDebouncer (line self) (interval self) v (rising self) (falling self)
              (_last_value self) (_last_change_time self).

Definition set_rising (v : bool) (self : Debouncer) : Debouncer :=
  mkDebouncer (line self) (interval self) (value self) v (falling self)
              (_last_value self) (_last_change_time self).

Definition set_falling (v : bool) (self : Debouncer) : Debouncer :=
  mkDebouncer (line self) (interval self) (value self) (rising self) v
              (_last_value self) (_last_change_time self).

Definition set_last_value (v : bool) (self : Debouncer) : Debouncer :=
  mkDebouncer (line self) (interval self) (value self) (rising self)
              (falling self) v (_last_change_time self).

Definition set_last_change_time (t : Q) (self : Debouncer) : Debouncer :=
  mkDebouncer (line self) (interval self) (value self) (rising self)
              (falling self) (_last_value self) t.

(** Python's [a > b] on numbers. *)
Definition Qgtb (a b : Q) : bool := negb (Qle_bool a b).

(** Nearest integer, ties to even. *)
Definition round_half_even (q : Q) : Z :=
  let f := Qfloor q in
  match Qcompare (q - inject_Z f) (1 # 2) with
  | Lt => f
  | Gt => (f + 1)%Z
  | Eq => if Z.even f then f else (f + 1)%Z
  end.

(** The integer part of the binary logarithm of a positive rational. *)
Definition Qlog2_floor (q : Q) : Z :=
  let e := (Z.log2 (Qnum q) - Z.log2 (Zpos (Qden q)))%Z in
  if Qle_bool (2 ^ e) q then e else (e - 1)%Z.

(** The unit in the last place of the double nearest to a positive
    rational: 53 significant bits, and never below 2^-1074. *)
Definition ulp_exponent (q : Q) : Z :=
  Z.max (Qlog2_floor q - 52) (-1074).

(** Rounding to the nearest double (binary64, ties to even), for values
    short of overflow: the rounding of [a - b] for two timestamps. *)
Definition round_double (q : Q) : Q :=
  match Qcompare q 0 with
  | Eq => 0
  | Gt =>
      let x := ulp_exponent q in
      inject_Z (round_half_even (q / 2 ^ x)) * 2 ^ x
  | Lt =>
      let x := ulp_exponent (- q) in
      - (inject_Z (round_half_even ((- q) / 2 ^ x)) * 2 ^ x)
  end.

(** The body of [Debouncer.update] once [now] and [raw] are read
    (lines 42-51), statement by statement; [round] is the rounding of
    the float subtraction. *)
Definition update_body (round : Q -> Q) (now : Q) (raw : bool)
           (self : Debouncer) : Debouncer :=
  let self :=
    if negb (Bool.eqb raw (_last_value self))
    then set_last_change_time now (set_last_value raw self)
    else self in
  let old_value := value self in
  let self :=
    if Qgtb (round (now - _last_change_time self)) (interval self)
    then set_value raw self
    else self in
  let self := set_rising (value self && negb old_value) self in
  set_falling (negb (value self) && old_value) self.

(** A sequence of [update] calls, each with the timestamp and the raw
    sample it reads; the list of the states after each call. *)
Fixpoint run_updates (round : Q -> Q) (calls : list (Q * bool))
         (self : Debouncer) : list Debouncer :=
  match calls with
  | [] => []
  | (now, raw) :: rest =>
      let self' := update_body round now raw self in
      self' :: run_updates round rest self'
  end.

(** ** Plugin state *)

(** What [int(self._settings.get([key]))] gives for a stored setting:
    the integer, or the exception of [int] ([ValueError] for a string
    that is not a number, [TypeError] for [None]). *)
Inductive IntSetting : Type :=
| IntValue (z : Z)
| IntValueError
| IntTypeError.

Record Settings : Type := mkSettings {
  runout_chip : string;
  jam_chip : string;
  runout_pin : IntSetting;
  jam_pin : IntSetting;
  runout_bounce : IntSetting;
  jam_bounce : IntSetting;
  runout_switch : IntSetting;
  jam_switch : IntSetting;
  runout_gcode : list string;   (* the setting after splitlines() *)
  jammed_gcode : list string;
  runout_pause_print : bool;
  jammed_pause_print : bool
}.

(** [get_settings_defaults]. *)
Definition get_settings_defaults : Settings :=
  mkSettings EmptyString EmptyString (IntValue 0) (IntValue 0)
             (IntValue 1000) (IntValue 1000) (IntValue 0) (IntValue 1)
             [] [] true true.

Record World : Type := mkWorld {
  settings : Settings;
  _runout_debouncer : option Debouncer;
  _jam_debouncer : option Debouncer;
  _print_running : bool;
  trace : list Event              (* most recent call first *)
}.

Definition set_runout_debouncer (d : option Debouncer) (w : World) : World :=
  mkWorld (settings w) d (_jam_debouncer w) (_print_running w) (trace w).

Definition set_jam_debouncer (d : option Debouncer) (w : World) : World :=
  mkWorld (settings w) (_runout_debouncer w) d (_print_running w) (trace w).

Definition set_print_running (b : bool) (w : World) : World :=
  mkWorld (settings w) (_runout_debouncer w) (_jam_debouncer w) b (trace w).

Definition push_event (ev : Event) (w : World) : World :=
  mkWorld (settings w) (_runout_debouncer w) (_jam_debouncer w)
          (_print_running w) (ev :: trace w).

(** [FilamentSensorUniversal.__init__]. *)
Definition plugin_init (s : Settings) : World :=
  mkWorld s None None false [].

(** ** The monad of plugin code: state, and exceptions that keep the state *)

Definition M (A : Type) : Type := World -> result A * World.

Definition ret {A} (a : A) : M A := fun w => (Ok a, w).

Definition bind {A B} (m : M A) (k : A -> M B) : M B :=
  fun w =>
    match m w with
    | (Ok a, w') => k a w'
    | (Raise e, w') => (Raise e, w')
    end.

Declare Scope plugin_scope.
Delimit Scope plugin_scope with plugin.
Notation "x <- m ;; k" := (bind m (fun x => k))
  (at level 61, m at next level, right associativity) : plugin_scope.
Notation "m ;; k" := (bind m (fun _ => k))
  (at level 61, right associativity) : plugin_scope.
Local Open Scope plugin_scope.

Definition gets {A} (f : World -> A) : M A := fun w => (Ok (f w), w).
Definition modify (f : World -> World) : M unit := fun w => (Ok tt, f w).

(** [if c: body]. *)
Definition when (c : bool) (body : M unit) : M unit :=
  if c then body else ret tt.

(** [try: body / except OSError: handler]. *)
Definition try_except_OSError (body handler : M unit) : M unit :=
  fun w =>
    match body w with
    | (Raise OSError, w') => handler w'
    | other => other
    end.

Definition raise {A} (e : exn) : M A := fun w => (Raise e, w).

(** The integer properties of the plugin ([runout_pin], [jam_bounce],
    ...): [int(self._settings.get([key]))]. *)
Definition int_setting (v : IntSetting) : M Z :=
  match v with
  | IntValue z => ret z
  | IntValueError => raise ValueError
  | IntTypeError => raise TypeError
  end.

Section Plugin.

Variable env : Env.

(** *** External calls *)

Definition time_time : M Q :=
  fun w => (Ok (clock env (List.length (trace w))), push_event EvTime w).

Definition Line_get_value (l : Line) : M bool :=
  fun w =>
    match line_level env l (List.length (trace w)) with
    | Some b => (Ok b, push_event (EvGetValue l) w)
    | None => (Raise OSError, push_event (EvGetValue l) w)
    end.

Definition gpiod_call (op : GpiodOp) : M unit :=
  fun w =>
    if gpiod_ok env (List.length (trace w))
    then (Ok tt, push_event (EvGpiod op) w)
    else (Raise OSError, push_event (EvGpiod op) w).

Definition printer_call (ev : Event) : M unit :=
  fun w =>
    if printer_ok env (List.length (trace w))
    then (Ok tt, push_event ev w)
    else (Raise PrinterException, push_event ev w).

Definition printer_pause_print : M unit := printer_call EvPausePrint.
Definition printer_cancel_print : M unit := printer_call EvCancelPrint.
Definition printer_commands (cmds : list string) : M unit :=
  printer_call (EvCommands cmds).

Definition logger_info (msg : string) : M unit := modify (push_event (EvLog INFO msg)).
Definition logger_error (msg : string) : M unit :=
  modify (push_event (EvLog ERROR_LVL msg)).

Definition time_sleep : M unit := modify (push_event EvSleep).

(** *** Debouncer methods *)

(** The [raw] property. *)
Definition Debouncer_raw (l : Line) : M bool := Line_get_value l.

(** [Debouncer.__init__]. *)
Definition Debouncer_new (l : Line) (itv : Q) : M Debouncer :=
  v <- Debouncer_raw l ;;
  t <- time_time ;;
  ret (mkDebouncer l itv v false false v t).

(** [Debouncer.update]: the object is written only after both reads, so
    an exception of a read leaves it as it was. *)
Definition Debouncer_update (self : Debouncer) : M Debouncer :=
  now <- time_time ;;
  raw <- Debouncer_raw (line self) ;;
  ret (update_body (float_round env) now raw self).

(** *** Properties of the plugin *)

Definition runout_sensor_enabled (w : World) : bool :=
  negb (String.eqb (runout_chip (settings w)) EmptyString).

Definition jam_sensor_enabled (w : World) : bool :=
  negb (String.eqb (jam_chip (settings w)) EmptyString).

(** The [runout_sensor] property: true when the filament has run out. *)
Definition runout_sensor (w : World) : bool :=
  match _runout_debouncer w with
  | None => false
  | Some d => negb (value d)
  end.

(** The [jam_sensor] property. *)
Definition jam_sensor (w : World) : bool :=
  match _jam_debouncer w with
  | None => false
  | Some d => value d
  end.

(** *** Status queries; the result is the [status] field of the answer *)

Definition api_get_filament (w : World) : string :=
  let status := "-1"%string in
  let status :=
    if runout_sensor_enabled w
    then (if runout_sensor w then "0"%string else "1"%string)
    else status in
  status.

Definition api_get_jammed (w : World) : string :=
  let status := "-1"%string in
  let status :=
    if jam_sensor_enabled w
    then (if jam_sensor w then "1"%string else "0"%string)
    else status in
  status.

(** *** Edge handlers *)

Definition nonempty {A} (l : list A) : bool :=
  match l with [] => false | _ :: _ => true end.

Definition runout_handler : M unit :=
  logger_info "Out of filament!" ;;
  running <- gets _print_running ;;
  when running (
    pause <- gets (fun w => runout_pause_print (settings w)) ;;
    when pause (
      logger_info "Pausing print." ;;
      printer_pause_print ;;
      modify (set_print_running false)) ;;
    gcode <- gets (fun w => runout_gcode (settings w)) ;;
    when (nonempty gcode) (
      logger_info "Sending out of filament GCODE" ;;
      printer_commands gcode)).

Definition jam_handler : M unit :=
  logger_info "Filament jammed!" ;;
  running <- gets _print_running ;;
  when running (
    pause <- gets (fun w => jammed_pause_print (settings w)) ;;
    when pause (
      logger_info "Pausing print." ;;
      printer_pause_print ;;
      modify (set_print_running false)) ;;
    gcode <- gets (fun w => jammed_gcode (settings w)) ;;
    when (nonempty gcode) (
      logger_info "Sending jammed GCODE" ;;
      printer_commands gcode)).

(** *** The poll loop *)

(** The two statements under [with self._gpio_lock]: update the debouncer
    if there is one, and say whether its edge triggers the handler. *)
Definition poll_runout : M bool :=
  d <- gets _runout_debouncer ;;
  match d with
  | Some self =>
      self' <- Debouncer_update self ;;
      modify (set_runout_debouncer (Some self')) ;;
      (* Filament runs out when sensor goes inactive *)
      ret (falling self')
  | None => ret false
  end.

Definition poll_jam : M bool :=
  d <- gets _jam_debouncer ;;
  match d with
  | Some self =>
      self' <- Debouncer_update self ;;
      modify (set_jam_debouncer (Some self')) ;;
      ret (rising self')
  | None => ret false
  end.

(** One iteration of the [while True] of [_sensor_thread]. *)
Definition tick : M unit :=
  runout_triggered <- poll_runout ;;
  jam_triggered <- poll_jam ;;
  when runout_triggered runout_handler ;;
  when jam_triggered jam_handler ;;
  time_sleep.

(** [_sensor_thread], cut after [fuel] iterations: [Ok] says that the loop
    is still running after them, [Raise] that an exception left it. *)
Fixpoint _sensor_thread (fuel : nat) : M unit :=
  match fuel with
  | O => ret tt
  | S fuel' => tick ;; _sensor_thread fuel'
  end.

(** *** Sensor setup *)

Definition close_debouncer (d : option Debouncer) : M unit :=
  match d with
  | Some self => gpiod_call (Chip_close (line self))
  | None => ret tt
  end.

Definition _setup_sensor : M unit :=
  d <- gets _runout_debouncer ;;
  close_debouncer d ;;
  when (match d with Some _ => true | None => false end)
       (modify (set_runout_debouncer None)) ;;
  d <- gets _jam_debouncer ;;
  close_debouncer d ;;
  when (match d with Some _ => true | None => false end)
       (modify (set_jam_debouncer None)) ;;
  s <- gets settings ;;
  enabled <- gets runout_sensor_enabled ;;
  (if enabled then
     try_except_OSError
       (gpiod_call (Chip_open (runout_chip s)) ;;
        pin <- int_setting (runout_pin s) ;;
        let runout_line := mkLine (runout_chip s) pin in
        gpiod_call (Chip_get_line (runout_chip s) pin) ;;
        gpiod_call (Line_request runout_line) ;;
        gpiod_call (Line_set_direction_input runout_line) ;;
        switch <- int_setting (runout_switch s) ;;
        gpiod_call (Line_set_flags runout_line true (switch =? 0)%Z) ;;
        bounce <- int_setting (runout_bounce s) ;;
        self <- Debouncer_new runout_line (inject_Z bounce) ;;
        modify (set_runout_debouncer (Some self)) ;;
        _ <- int_setting (runout_pin s) ;;
        logger_info "Filament runout sensor active on GPIO chip: %s, line: %d")
       (logger_error "Invalid filament runout sensor configuration")
   else logger_info "Filament runout sensor not configured") ;;
  enabled <- gets jam_sensor_enabled ;;
  (if enabled then
     try_except_OSError
       (gpiod_call (Chip_open (jam_chip s)) ;;
        pin <- int_setting (jam_pin s) ;;
        let jam_line := mkLine (jam_chip s) pin in
        gpiod_call (Chip_get_line (jam_chip s) pin) ;;
        gpiod_call (Line_request jam_line) ;;
        gpiod_call (Line_set_direction_input jam_line) ;;
        switch <- int_setting (jam_switch s) ;;
        gpiod_call (Line_set_flags jam_line true (switch =? 0)%Z) ;;
        bounce <- int_setting (jam_bounce s) ;;
        self <- Debouncer_new jam_line (inject_Z bounce) ;;
        modify (set_jam_debouncer (Some self)) ;;
        _ <- int_setting (jam_pin s) ;;
        logger_info "Filament jam sensor active on GPIO chip: %s, line: %d")
       (logger_error "Invalid filament jam sensor configuration")
   else logger_info "Filament jam sensor not configured").

(** *** Print lifecycle events *)

Inductive PrintEvent : Type :=
| PRINT_STARTED
| PRINT_RESUMED
| PRINT_DONE
| PRINT_FAILED
| PRINT_PAUSED
| PRINT_CANCELLED
| ERROR
| OtherEvent (name : string).

Definition enables_sensor (event : PrintEvent) : bool :=
  match event with
  | PRINT_STARTED | PRINT_RESUMED => true
  | _ => false
  end.

Definition disables_sensor (event : PrintEvent) : bool :=
  match event with
  | PRINT_DONE | PRINT_FAILED | PRINT_PAUSED | PRINT_CANCELLED | ERROR => true
  | _ => false
  end.

Definition on_event (event : PrintEvent) : M unit :=
  when (match event with PRINT_STARTED => true | _ => false end) (
    out <- gets runout_sensor ;;
    when out (
      logger_info "Printing aborted: no filament detected!" ;;
      printer_cancel_print) ;;
    jammed <- gets jam_sensor ;;
    when jammed (
      logger_info "Printing aborted: filament jammed!" ;;
      printer_cancel_print)) ;;
  if enables_sensor event then modify (set_print_running true)
  else if disables_sensor event then modify (set_print_running false)
  else ret tt.

(** *** Entry points of the plugin, as the host and the poll thread call them *)

Inductive Call : Type :=
| CallOnEvent (event : PrintEvent)
| CallRunoutHandler
| CallJamHandler
| CallTick
| CallSetupSensor.

Definition run_call (c : Call) : M unit :=
  match c with
  | CallOnEvent event => on_event event
  | CallRunoutHandler => runout_handler
  | CallJamHandler => jam_handler
  | CallTick => tick
  | CallSetupSensor => _setup_sensor
  end.

End Plugin.

(** ** Counting calls in a trace *)

Definition is_get_value (ev : Event) : bool :=
  match ev with EvGetValue _ => true | _ => false end.

Definition is_pause (ev : Event) : bool :=
  match ev with EvPausePrint => true | _ => false end.

Definition is_cancel (ev : Event) : bool :=
  match ev with EvCancelPrint => true | _ => false end.

Definition is_log (ev : Event) : bool :=
  match ev with EvLog _ _ => true | _ => false end.

Definition is_sleep (ev : Event) : bool :=
  match ev with EvSleep => true | _ => false end.

Definition count (p : Event -> bool) (tr : list Event) : nat :=
  List.length (filter p tr).

(** ** Relations between the state before and after a piece of code *)

(** [respects R m]: however [m] ends, normally or with an exception, the
    states before and after are related by [R]. *)
Definition respects {A} (R : World -> World -> Prop) (m : M A) : Prop :=
  forall w r w', m w = (r, w') -> R w w'.

(** The gate is as before. *)
Definition same_gate (w w' : World) : Prop :=
  _print_running w' = _print_running w.

(** The settings, the gate and the number of pauses requested are as
    before. *)
Definition no_action (w w' : World) : Prop :=
  settings w' = settings w /\
  _print_running w' = _print_running w /\
  count is_pause (trace w') = count is_pause (trace w).

(** The gate is as before, or it was closed and a pause was requested;
    pauses are never taken back. *)
Definition gate_step (w w' : World) : Prop :=
  (count is_pause (trace w) <= count is_pause (trace w'))%nat /\
  (_print_running w' = _print_running w \/
   (_print_running w' = false /\
    (count is_pause (trace w) < count is_pause (trace w'))%nat)).


(** The invariant kept through a glitch: the stable value is [v], and
    either the recorded raw value is [v] too, or the departure that is
    being timed began inside the window that starts at [start]. *)
Definition in_glitch (v : bool) (start : Q) (s : Debouncer) : Prop :=
  value s = v /\ (_last_value s = v \/ start <= _last_change_time s).

(** ** Concrete debouncers and runs *)

Definition gpio4 : Line := mkLine "gpiochip0" 4.

(** A settled debouncer (stable and raw both true) with interval zero. *)
Definition zero_interval_debouncer : Debouncer :=
  mkDebouncer gpio4 0 true false false true 0.

(** A settled debouncer with a negative interval. *)
Definition negative_interval_debouncer : Debouncer :=
  mkDebouncer gpio4 (-1) true false false true 0.

(** A settled debouncer with an interval of one second. *)
Definition one_second_debouncer : Debouncer :=
  mkDebouncer gpio4 1 true false false true 0.

(** Samples every 200 ms: a glitch at 0.2 s and 0.4 s, then steady. *)
(** The raw line alternates on every tick. *)
Definition bouncing_calls : list (Q * bool) :=
  [ (1, false); (2, true); (3, false); (4, true) ].

Definition glitch_calls : list (Q * bool) :=
  [ (0, true); (1 # 5, false); (2 # 5, false); (3 # 5, true);
    (4 # 5, true); (2, true); (3, true) ].

(** ** Concrete worlds *)

(** Only the runout sensor is configured, on line 4 of gpiochip0. *)
Definition runout_settings : Settings :=
  mkSettings "gpiochip0" EmptyString (IntValue 4) (IntValue 0)
             (IntValue 1000) (IntValue 1000) (IntValue 0) (IntValue 1)
             [] [] true true.

Definition seconds (k : nat) : Q := inject_Z (Z.of_nat k).

(** The line cannot be read. *)
Definition unreadable_env : Env :=
  mkEnv seconds (fun _ _ => None) (fun _ => true) (fun _ => true)
        round_double.

(** The line reads low and the printer refuses every call. *)
Definition printer_down_env : Env :=
  mkEnv seconds (fun _ _ => Some false) (fun _ => true) (fun _ => false)
        round_double.

(** The line reads low and the printer accepts every call. *)
Definition working_env : Env :=
  mkEnv seconds (fun _ _ => Some false) (fun _ => true) (fun _ => true)
        round_double.

(** [gpiod] refuses every call. *)
Definition gpiod_down_env : Env :=
  mkEnv seconds (fun _ _ => Some true) (fun _ => false) (fun _ => true)
        round_double.

(** A print is running and the runout sensor is settled on "present". *)
Definition printing_world : World :=
  mkWorld runout_settings (Some one_second_debouncer) None true [].

(** The same with a debouncer that commits at once. *)
Definition printing_world_no_debounce : World :=
  mkWorld runout_settings (Some negative_interval_debouncer) None true [].

(** The runout sensor reads "absent" ([value] false), no print is running. *)
Definition out_of_filament_world : World :=
  mkWorld runout_settings
          (Some (mkDebouncer gpio4 1 false false false false 0)) None false [].

(** ** Further notions used by the properties of the whole plugin *)

Definition is_time (ev : Event) : bool :=
  match ev with EvTime => true | _ => false end.

Definition is_commands (ev : Event) : bool :=
  match ev with EvCommands _ => true | _ => false end.

Definition is_gpiod (ev : Event) : bool :=
  match ev with EvGpiod _ => true | _ => false end.

(** Any call into the printer. *)
Definition is_printer_call (ev : Event) : bool :=
  match ev with
  | EvPausePrint | EvCancelPrint | EvCommands _ => true
  | _ => false
  end.

(** The debouncer reports an edge. *)
Definition edge (s : Debouncer) : bool := rising s || falling s.

(** No level of the raw line is seen held for longer than [itv]: [last] is
    the level sampled last and [since] the time of the first sample of its
    run. *)
Fixpoint never_held (itv : Q) (last : bool) (since : Q)
         (calls : list (Q * bool)) : Prop :=
  match calls with
  | [] => True
  | (t, r) :: rest =>
      if Bool.eqb r last
      then t - since <= itv /\ never_held itv last since rest
      else never_held itv r t rest
  end.

(** The debouncer after a sequence of [update] calls. *)
Definition after_updates (round : Q -> Q) (calls : list (Q * bool))
           (self : Debouncer) : Debouncer :=
  fold_left (fun s call => update_body round (fst call) (snd call) s)
            calls self.

(** With the gate closed, the gate stays closed and the printer is not
    called. *)
Definition closed_gate_quiet (w w' : World) : Prop :=
  _print_running w = false ->
  _print_running w' = false /\
  count is_printer_call (trace w') = count is_printer_call (trace w).

(** No line is sampled, the clock is not read, the loop does not sleep,
    and the debouncers are as before. *)
Definition no_sampling (w w' : World) : Prop :=
  _runout_debouncer w' = _runout_debouncer w /\
  _jam_debouncer w' = _jam_debouncer w /\
  count is_get_value (trace w') = count is_get_value (trace w) /\
  count is_time (trace w') = count is_time (trace w) /\
  count is_sleep (trace w') = count is_sleep (trace w).

(** The entries a handler leaves in the trace, most recent first, on an
    open gate with a printer that accepts its calls. *)
Definition handler_entries (what pause_msg : string) (pause : bool)
           (gcode_msg : string) (gcode : list string) : list Event :=
  (if nonempty gcode then [EvCommands gcode; EvLog INFO gcode_msg] else []) ++
  (if pause then [EvPausePrint; EvLog INFO pause_msg] else []) ++
  [EvLog INFO what].

(** [int(...)] of the setting gives an integer. *)
Definition is_int (v : IntSetting) : bool :=
  match v with IntValue _ => true | _ => false end.

(** The number of installed debouncers. *)
Definition installed (d : option Debouncer) : nat :=
  match d with Some _ => 1%nat | None => 0%nat end.

(** The settings are as before, and each sensor has a debouncer exactly
    if it had one. *)
Definition same_installation (w w' : World) : Prop :=
  settings w' = settings w /\
  installed (_runout_debouncer w') = installed (_runout_debouncer w) /\
  installed (_jam_debouncer w') = installed (_jam_debouncer w).

(** Every sensor that has a debouncer is enabled in the settings. *)
Definition sensors_consistent (w : World) : Prop :=
  (_runout_debouncer w <> None -> runout_sensor_enabled w = true) /\
  (_jam_debouncer w <> None -> jam_sensor_enabled w = true).

(** Both sensors configured, with G-code to send and no pause. *)
Definition gcode_settings : Settings :=
  mkSettings "gpiochip0" "gpiochip0" (IntValue 4) (IntValue 5)
             (IntValue 2) (IntValue 3) (IntValue 0) (IntValue 1)
             ["M600"%string] ["M117 jam"%string] false false.

Definition gpio5 : Line := mkLine "gpiochip0" 5.

(** Every line reads high; [gpiod] and the printer accept every call. *)
Definition high_env : Env :=
  mkEnv seconds (fun _ _ => Some true) (fun _ => true) (fun _ => true)
        round_double.

(** A print is running, G-code is forwarded without pausing. *)
Definition gcode_world : World :=
  mkWorld gcode_settings (Some one_second_debouncer) None true [].

(** No print is running; the runout line is about to read low. *)
Definition idle_world : World :=
  mkWorld runout_settings (Some negative_interval_debouncer) None false [].

(** Both sensors read trouble. *)
Definition out_and_jammed_world : World :=
  mkWorld gcode_settings
          (Some (mkDebouncer gpio4 1 false false false false 0))
          (Some (mkDebouncer gpio5 1 true false false true 0)) false [].

(** The runout sensor is configured with a pin that is not a number. *)
Definition bad_pin_settings : Settings :=
  mkSettings "gpiochip0" EmptyString IntValueError (IntValue 0)
             (IntValue 1000) (IntValue 1000) (IntValue 0) (IntValue 1)
             [] [] true true.

(** A raw change to low was recorded at the double 0.1; the interval is
    one second. *)
Definition pending_debouncer : Debouncer :=
  mkDebouncer gpio4 1 true false false false (round_double (1 # 10)).

(** A level held from time 1 on, sampled every half second. *)
Definition held_calls : list (Q * bool) :=
  [ (3 # 2, false); (2, false); (5 # 2, false); (3, false) ].

(** * Properties *)

(** ** The rounding of doubles *)

(** The subtraction of the doubles 1.1 and 0.1 gives exactly 1. *)
Example one_point_one_minus_a_tenth :
  round_double (round_double (11 # 10) - round_double (1 # 10)) == 1.
Proof. vm_compute. reflexivity. Qed.

(** An update at the double 1.1 does not commit a change recorded at the
    double 0.1 with an interval of one second, although the two doubles
    are more than one second apart as rationals. *)
Example float_boundary_not_committed :
  1 < round_double (11 # 10) - round_double (1 # 10) /\
  value (update_body round_double (round_double (11 # 10)) false
           pending_debouncer) = true /\
  falling (update_body round_double (round_double (11 # 10)) false
             pending_debouncer) = false.
Proof. repeat split; vm_compute; reflexivity. Qed.

Lemma round_double_zero a : a == 0 -> round_double a == 0.
Proof.
  intros H. unfold round_double. apply Qeq_alt in H. rewrite H. reflexivity.
Qed.

Lemma round_half_even_le q n : q <= inject_Z n -> (round_half_even q <= n)%Z.
Proof.
  intros Hq. unfold round_half_even.
  pose proof (Qfloor_le q) as Hf.
  assert (Hfn : (Qfloor q <= n)%Z).
  { rewrite Zle_Qle. apply (Qle_trans _ q); assumption. }
  assert (Hstep : Qfloor q = n \/ (Qfloor q + 1 <= n)%Z) by lia.
  destruct (Qcompare (q - inject_Z (Qfloor q)) (1 # 2)) eqn:C.
  - apply Qeq_alt in C. destruct Hstep as [E | E].
    + rewrite E in C. lra.
    + destruct (Z.even _); lia.
  - exact Hfn.
  - apply Qgt_alt in C. destruct Hstep as [E | E].
    + rewrite E in C. lra.
    + exact E.
Qed.

Lemma round_half_even_nonneg q : 0 <= q -> (0 <= round_half_even q)%Z.
Proof.
  intros Hq. unfold round_half_even.
  assert (Hf : (0 <= Qfloor q)%Z).
  { change 0%Z with (Qfloor 0). apply Qfloor_resp_le. exact Hq. }
  destruct (Qcompare _ _); [destruct (Z.even _) | |]; lia.
Qed.

Lemma Qpower2_pos (z : Z) : 0 < 2 ^ z.
Proof. apply Qpower_0_lt. reflexivity. Qed.

Lemma Qpower2_Z (k : Z) : (0 <= k)%Z -> 2 ^ k == inject_Z (2 ^ k).
Proof. intros H. rewrite Zpower_Qpower by exact H. reflexivity. Qed.

Lemma Qlog2_floor_le q : 0 < q -> 2 ^ (Qlog2_floor q) <= q.
Proof.
  intros Hq. unfold Qlog2_floor.
  destruct (Qle_bool _ q) eqn:E.
  - apply Qle_bool_iff. exact E.
  - clear E. destruct q as [n d]. simpl Qnum. simpl Qden.
    assert (Hn : (0 < n)%Z).
    { unfold Qlt in Hq. simpl in Hq. lia. }
    pose proof (Z.log2_spec n Hn) as [Hn1 _].
    pose proof (Z.log2_spec (Zpos d) (Pos2Z.is_pos d)) as [_ Hd2].
    pose proof (Z.log2_nonneg n) as Hln.
    pose proof (Z.log2_nonneg (Zpos d)) as Hld.
    replace (Z.log2 n - Z.log2 (Z.pos d) - 1)%Z
      with (Z.log2 n - Z.succ (Z.log2 (Z.pos d)))%Z by lia.
    rewrite Qpower_minus by (intros H; discriminate H).
    rewrite !Qpower2_Z by lia.
    set (A := (2 ^ Z.log2 n)%Z) in *.
    set (B := (2 ^ Z.succ (Z.log2 (Z.pos d)))%Z) in *.
    assert (HB : (0 < B)%Z) by (unfold B; apply Z.pow_pos_nonneg; lia).
    assert (HA : (0 < A)%Z) by (unfold A; apply Z.pow_pos_nonneg; lia).
    apply Qle_shift_div_r.
    + change 0 with (inject_Z 0). rewrite <- Zlt_Qlt. exact HB.
    + unfold Qle. simpl. nia.
Qed.

Lemma ulp_exponent_nonpos a : 0 < a -> a < 2 ^ 53 -> (ulp_exponent a <= 0)%Z.
Proof.
  intros Hpos Hlt. unfold ulp_exponent.
  assert (He : (Qlog2_floor a < 53)%Z).
  { apply (Qpower_lt_compat_l_inv 2); [|reflexivity].
    apply (Qle_lt_trans _ a); [apply Qlog2_floor_le; exact Hpos | exact Hlt]. }
  lia.
Qed.

Lemma scale_cancel (n x : Z) :
  (x <= 0)%Z -> inject_Z (n * 2 ^ (- x)) * 2 ^ x == inject_Z n.
Proof.
  intros Hx. rewrite inject_Z_mult, <- Qpower2_Z by lia.
  rewrite <- Qmult_assoc, <- Qpower_plus by (intros H; discriminate H).
  replace (- x + x)%Z with 0%Z by lia. simpl. ring.
Qed.

Lemma round_double_le (n : Z) a :
  (0 <= n < 2 ^ 53)%Z -> a <= inject_Z n -> round_double a <= inject_Z n.
Proof.
  intros Hn Ha. unfold round_double.
  assert (Hn0 : 0 <= inject_Z n).
  { change 0 with (inject_Z 0). rewrite <- Zle_Qle. lia. }
  destruct (Qcompare a 0) eqn:C.
  - exact Hn0.
  - apply Qlt_alt in C. cbv zeta.
    set (x := ulp_exponent (- a)).
    pose proof (Qpower2_pos x) as Hp.
    assert (Hm : (0 <= round_half_even (- a / 2 ^ x))%Z).
    { apply round_half_even_nonneg. apply Qle_shift_div_l; [exact Hp|]. lra. }
    rewrite Zle_Qle in Hm. change (inject_Z 0) with 0 in Hm.
    assert (0 <= inject_Z (round_half_even (- a / 2 ^ x)) * 2 ^ x).
    { apply Qmult_le_0_compat; [exact Hm | apply Qlt_le_weak; exact Hp]. }
    lra.
  - apply Qgt_alt in C. cbv zeta.
    set (x := ulp_exponent a).
    pose proof (Qpower2_pos x) as Hp.
    assert (Hx : (x <= 0)%Z).
    { apply ulp_exponent_nonpos; [exact C|].
      apply (Qle_lt_trans _ (inject_Z n)); [exact Ha|].
      rewrite Qpower2_Z by lia. rewrite <- Zlt_Qlt. lia. }
    assert (Hm : (round_half_even (a / 2 ^ x) <= n * 2 ^ (- x))%Z).
    { apply round_half_even_le. apply Qle_shift_div_r; [exact Hp|].
      rewrite scale_cancel by exact Hx. exact Ha. }
    rewrite Zle_Qle in Hm.
    rewrite <- (scale_cancel n x Hx).
    apply Qmult_le_compat_r; [exact Hm | apply Qlt_le_weak; exact Hp].
Qed.


Lemma round_half_even_ge_one q : 1 <= q -> (1 <= round_half_even q)%Z.
Proof.
  intros Hq. unfold round_half_even.
  assert (Hf : (1 <= Qfloor q)%Z).
  { change 1%Z with (Qfloor 1). apply Qfloor_resp_le. exact Hq. }
  destruct (Qcompare _ _); [destruct (Z.even _) | |]; lia.
Qed.

Lemma ulp_exponent_le a : 0 < a -> 2 ^ (-1074) <= a -> 2 ^ ulp_exponent a <= a.
Proof.
  intros Hpos Htiny. unfold ulp_exponent.
  destruct (Z.max_spec (Qlog2_floor a - 52) (-1074)) as [[_ ->] | [_ ->]].
  - exact Htiny.
  - apply (Qle_trans _ (2 ^ Qlog2_floor a)).
    + apply Qpower_le_compat_l; [lia | discriminate].
    + apply Qlog2_floor_le. exact Hpos.
Qed.

Lemma round_double_pos a : 2 ^ (-1074) <= a -> 0 < round_double a.
Proof.
  intros Htiny.
  assert (Hpos : 0 < a).
  { apply (Qlt_le_trans _ (2 ^ (-1074))); [apply Qpower2_pos | exact Htiny]. }
  unfold round_double. pose proof Hpos as C. apply Qgt_alt in C. rewrite C.
  cbv zeta. set (x := ulp_exponent a).
  pose proof (Qpower2_pos x) as Hp.
  assert (Hm : (1 <= round_half_even (a / 2 ^ x))%Z).
  { apply round_half_even_ge_one. apply Qle_shift_div_l; [exact Hp|].
    rewrite Qmult_1_l. apply ulp_exponent_le; assumption. }
  rewrite Zle_Qle in Hm. change (inject_Z 1) with 1 in Hm.
  apply (Qlt_le_trans _ (1 * 2 ^ x)); [lra|].
  apply Qmult_le_compat_r; [exact Hm | apply Qlt_le_weak; exact Hp].
Qed.

(** ** Facts about the comparison and the fields after [update] *)

Lemma Qgtb_true_iff (a b : Q) : Qgtb a b = true <-> b < a.
Proof.
  unfold Qgtb. rewrite negb_true_iff. split.
  - intros H. apply Qnot_le_lt. intros Hle.
    apply Qle_bool_iff in Hle. congruence.
  - intros H. destruct (Qle_bool a b) eqn:E; [|reflexivity].
    apply Qle_bool_iff in E. exfalso. apply (Qlt_not_le _ _ H E).
Qed.

Lemma Qgtb_false_iff (a b : Q) : Qgtb a b = false <-> a <= b.
Proof.
  unfold Qgtb. rewrite negb_false_iff. apply Qle_bool_iff.
Qed.

Lemma update_body_line round now raw self :
  line (update_body round now raw self) = line self.
Proof.
  unfold update_body.
  destruct (negb (Bool.eqb raw (_last_value self))); simpl;
    match goal with |- context [Qgtb ?a ?b] => destruct (Qgtb a b) end;
    reflexivity.
Qed.

Lemma update_body_interval round now raw self :
  interval (update_body round now raw self) = interval self.
Proof.
  unfold update_body.
  destruct (negb (Bool.eqb raw (_last_value self))); simpl;
    match goal with |- context [Qgtb ?a ?b] => destruct (Qgtb a b) end;
    reflexivity.
Qed.

Lemma update_body_last_value round now raw self :
  _last_value (update_body round now raw self) = raw.
Proof.
  unfold update_body.
  destruct (Bool.eqb raw (_last_value self)) eqn:E; simpl;
    match goal with |- context [Qgtb ?a ?b] => destruct (Qgtb a b) end;
    simpl; try reflexivity; symmetry; apply eqb_prop; exact E.
Qed.

Lemma update_body_last_change_time round now raw self :
  _last_change_time (update_body round now raw self) =
  if Bool.eqb raw (_last_value self) then _last_change_time self else now.
Proof.
  unfold update_body.
  destruct (Bool.eqb raw (_last_value self)); simpl;
    match goal with |- context [Qgtb ?a ?b] => destruct (Qgtb a b) end;
    reflexivity.
Qed.

Lemma update_body_value round now raw self :
  value (update_body round now raw self) =
  if Qgtb (round (now - _last_change_time (update_body round now raw self)))
          (interval self)
  then raw else value self.
Proof.
  rewrite update_body_last_change_time. unfold update_body.
  destruct (Bool.eqb raw (_last_value self)); simpl;
    match goal with |- context [Qgtb ?a ?b] => destruct (Qgtb a b) end;
    reflexivity.
Qed.

Lemma update_body_rising round now raw self :
  rising (update_body round now raw self) =
  value (update_body round now raw self) && negb (value self).
Proof.
  unfold update_body.
  destruct (Bool.eqb raw (_last_value self)); simpl;
    match goal with |- context [Qgtb ?a ?b] => destruct (Qgtb a b) end;
    reflexivity.
Qed.

Lemma update_body_falling round now raw self :
  falling (update_body round now raw self) =
  negb (value (update_body round now raw self)) && value self.
Proof.
  unfold update_body.
  destruct (Bool.eqb raw (_last_value self)); simpl;
    match goal with |- context [Qgtb ?a ?b] => destruct (Qgtb a b) end;
    reflexivity.
Qed.

(** What [Debouncer.update] does when the line can be read: the clock is
    read, then the line, then the body runs. *)
Lemma Debouncer_update_ok env self w raw :
  line_level env (line self) (S (List.length (trace w))) = Some raw ->
  Debouncer_update env self w =
  (Ok (update_body (float_round env) (clock env (List.length (trace w))) raw
                   self),
   push_event (EvGetValue (line self)) (push_event EvTime w)).
Proof.
  intros H. unfold Debouncer_update, bind, time_time, Debouncer_raw,
    Line_get_value, ret. simpl. rewrite H. reflexivity.
Qed.

(** A failed read leaves [update] with [OSError]. *)
Lemma Debouncer_update_raise env self w :
  line_level env (line self) (S (List.length (trace w))) = None ->
  Debouncer_update env self w =
  (Raise OSError, push_event (EvGetValue (line self)) (push_event EvTime w)).
Proof.
  intros H. unfold Debouncer_update, bind, time_time, Debouncer_raw,
    Line_get_value, ret. simpl. rewrite H. reflexivity.
Qed.

(** ** The debouncer *)

(** C1. A call of [update] whose read succeeds samples the line exactly
    once; a sample that differs from [_last_value] is recorded and
    [_last_change_time] becomes [now], otherwise both are kept; then
    [value] becomes the sample if and only if
    [now - _last_change_time > interval] (the float difference, with the
    [_last_change_time] just written), and is kept otherwise; [rising] is (new stable and not old
    stable), [falling] is (not new stable and old stable). *)
Theorem Debouncer_update_spec env self w raw :
  line_level env (line self) (S (List.length (trace w))) = Some raw ->
  let now := clock env (List.length (trace w)) in
  exists self' w',
    Debouncer_update env self w = (Ok self', w') /\
    count is_get_value (trace w') = S (count is_get_value (trace w)) /\
    (raw <> _last_value self ->
       _last_value self' = raw /\ _last_change_time self' = now) /\
    (raw = _last_value self ->
       _last_value self' = _last_value self /\
       _last_change_time self' = _last_change_time self) /\
    (interval self < float_round env (now - _last_change_time self') ->
       value self' = raw) /\
    (~ interval self < float_round env (now - _last_change_time self') ->
       value self' = value self) /\
    rising self' = value self' && negb (value self) /\
    falling self' = negb (value self') && value self.
Proof.
  intros Hread now.
  exists (update_body (float_round env) now raw self),
         (push_event (EvGetValue (line self)) (push_event EvTime w)).
  split; [apply Debouncer_update_ok; exact Hread|].
  split; [reflexivity|].
  split.
  { intros Hne. rewrite update_body_last_value, update_body_last_change_time.
    destruct (Bool.eqb raw (_last_value self)) eqn:E; [|split; reflexivity].
    apply eqb_prop in E. contradiction. }
  split.
  { intros Heq. rewrite update_body_last_value, update_body_last_change_time.
    rewrite Heq at 2. rewrite eqb_reflx. split; [exact Heq | reflexivity]. }
  split.
  { intros Hlt. rewrite update_body_value.
    apply Qgtb_true_iff in Hlt. rewrite Hlt. reflexivity. }
  split.
  { intros Hnlt. rewrite update_body_value.
    destruct (Qgtb _ _) eqn:E; [|reflexivity].
    apply Qgtb_true_iff in E. contradiction. }
  split; [apply update_body_rising | apply update_body_falling].
Qed.

(** C8. After an update [rising] and [falling] are never both true, each
    is true only when the stable value changed in its direction on that
    update, and both are false when the stable value did not change. *)
Theorem rising_falling_exclusive round now raw self :
  let self' := update_body round now raw self in
  rising self' && falling self' = false /\
  (rising self' = true <-> value self = false /\ value self' = true) /\
  (falling self' = true <-> value self = true /\ value self' = false) /\
  (value self' = value self -> rising self' = false /\ falling self' = false).
Proof.
  cbv zeta. rewrite update_body_rising, update_body_falling.
  destruct (value (update_body round now raw self)), (value self); simpl;
    repeat split; try reflexivity; try discriminate;
    try (intros [? ?]; discriminate); intros; discriminate.
Qed.

(** C9. Two updates with the same timestamp and the same raw sample: the
    second one reports no edge. *)
Theorem update_twice_no_edge round now raw self :
  let once := update_body round now raw self in
  let twice := update_body round now raw once in
  rising twice = false /\ falling twice = false /\ value twice = value once.
Proof.
  cbv zeta.
  assert (Hv : value (update_body round now raw (update_body round now raw self)) =
               value (update_body round now raw self)).
  { rewrite (update_body_value round now raw (update_body round now raw self)).
    rewrite (update_body_last_change_time round now raw
               (update_body round now raw self)).
    rewrite update_body_last_value, eqb_reflx, update_body_interval.
    destruct (Qgtb _ _) eqn:E; [|reflexivity].
    rewrite update_body_value, E. reflexivity. }
  rewrite update_body_rising, update_body_falling, Hv.
  destruct (value (update_body round now raw self)); repeat split; reflexivity.
Qed.

(** *** Glitches *)

Lemma glitch_step round v start t r s :
  0 <= interval s ->
  (forall a, a <= interval s -> round a <= interval s) ->
  in_glitch v start s ->
  (r <> v -> start <= t /\ t <= start + interval s) ->
  in_glitch v start (update_body round t r s) /\
  rising (update_body round t r s) = false /\
  falling (update_body round t r s) = false.
Proof.
  intros Hpos Hround [Hv Hpend] Hwin.
  assert (Hval : value (update_body round t r s) = v).
  { rewrite update_body_value, update_body_last_change_time.
    destruct (bool_dec r v) as [-> | Hne].
    - rewrite Hv. destruct (Qgtb _ _); reflexivity.
    - destruct (Hwin Hne) as [Hlo Hhi].
      assert (Hle : (if Bool.eqb r (_last_value s)
                     then t - _last_change_time s
                     else t - t) <= interval s).
      { destruct (Bool.eqb r (_last_value s)) eqn:E.
        - apply eqb_prop in E. destruct Hpend as [Hl | Hl].
          + congruence.
          + lra.
        - lra. }
      destruct (Bool.eqb r (_last_value s));
        apply Hround in Hle; apply Qgtb_false_iff in Hle; rewrite Hle;
        exact Hv. }
  split; [split; [exact Hval|] |].
  - rewrite update_body_last_value, update_body_last_change_time.
    destruct (bool_dec r v) as [-> | Hne]; [left; reflexivity|].
    right. destruct (Hwin Hne) as [Hlo _].
    destruct (Bool.eqb r (_last_value s)) eqn:E; [|exact Hlo].
    apply eqb_prop in E. destruct Hpend as [Hl | Hl]; [congruence | exact Hl].
  - rewrite update_body_rising, update_body_falling, Hval, Hv.
    destruct v; split; reflexivity.
Qed.

Lemma glitch_run round v start itv calls : forall s,
  0 <= itv ->
  (forall a, a <= itv -> round a <= itv) ->
  interval s = itv ->
  in_glitch v start s ->
  (forall t r, In (t, r) calls -> r <> v -> start <= t /\ t <= start + itv) ->
  Forall (fun s' => value s' = v /\ rising s' = false /\ falling s' = false)
         (run_updates round calls s).
Proof.
  induction calls as [| [t r] rest IH]; intros s Hpos Hround Hitv Hinv Hwin.
  - constructor.
  - simpl.
    destruct (glitch_step round v start t r s) as [Hinv' [Hr Hf]].
    + rewrite Hitv. exact Hpos.
    + rewrite Hitv. exact Hround.
    + exact Hinv.
    + intros Hne. rewrite Hitv. apply (Hwin t r); [left; reflexivity | exact Hne].
    + constructor.
      * split; [apply Hinv' | split; assumption].
      * apply IH; try assumption.
        -- rewrite update_body_interval. exact Hitv.
        -- intros t' r' Hin. apply (Hwin t' r'). right. exact Hin.
Qed.

(** C2. With a positive interval, starting from a settled debouncer (the
    recorded raw value is the stable value): if every sample of a sequence
    of updates that departs from the stable value lies in one window of
    duration [interval], then after every update of the sequence the stable
    value is the one before the glitch and [rising] and [falling] are
    false.  The rounding of the float subtraction does not carry a
    difference that is at most the interval above the interval: this is so
    for doubles and an interval that is an integer below 2^53
    ([round_double_le]). *)
Theorem isolated_glitch_suppressed (round : Q -> Q) (self : Debouncer)
        (start : Q) (calls : list (Q * bool)) :
  (forall a, a <= interval self -> round a <= interval self) ->
  0 < interval self ->
  _last_value self = value self ->
  (forall t r, In (t, r) calls -> r <> value self ->
               start <= t /\ t <= start + interval self) ->
  Forall (fun s' => value s' = value self /\
                    rising s' = false /\ falling s' = false)
         (run_updates round calls self).
Proof.
  intros Hround Hpos Hsettled Hwin.
  apply (glitch_run round (value self) start (interval self)).
  - apply Qlt_le_weak. exact Hpos.
  - exact Hround.
  - reflexivity.
  - split; [reflexivity | left; exact Hsettled].
  - exact Hwin.
Qed.

(** *** Zero and negative intervals *)

(** C3, as stated, fails for interval zero: the sample [false] read at
    time 1 differs from the stable value [true] and is not committed by
    that update; with the line alternating on every tick it is never
    committed, and no edge is reported. *)
Lemma zero_interval_change_not_committed :
  interval zero_interval_debouncer = 0 /\
  value zero_interval_debouncer = true /\
  value (update_body round_double 1 false zero_interval_debouncer) = true /\
  map value (run_updates round_double bouncing_calls zero_interval_debouncer) =
    [true; true; true; true] /\
  map falling (run_updates round_double bouncing_calls zero_interval_debouncer) =
    [false; false; false; false].
Proof. repeat split; vm_compute; reflexivity. Qed.

(** C3, amended. With a negative interval a raw change is committed by the
    update that samples it, and a settled debouncer stays settled on the
    sample of every update.  With interval zero the update that samples a
    raw change leaves the stable value as it was, and the next update
    commits the sample if it reads the same raw value at a strictly later
    time: one for which the float difference of the two timestamps is
    positive, as it is when they are at least [tiny] apart and the
    rounding keeps such differences positive (for doubles, [tiny] is
    2^-1074, the least distance of two doubles: [round_double_pos]).
    Whatever the interval, [update] raises nothing when the line can be
    read.  The float difference of a timestamp with itself is zero
    ([round_double_zero]). *)
Theorem degenerate_interval_commit env w now raw self :
  (forall a, a == 0 -> float_round env a == 0) ->
  (interval self < 0 ->
     (raw <> _last_value self ->
      value (update_body (float_round env) now raw self) = raw) /\
     (_last_value self = value self ->
        value (update_body (float_round env) now raw self) = raw /\
        _last_value (update_body (float_round env) now raw self) = raw)) /\
  (interval self == 0 -> raw <> _last_value self ->
     value (update_body (float_round env) now raw self) = value self /\
     (forall now', 0 < float_round env (now' - now) ->
        value (update_body (float_round env) now' raw
                 (update_body (float_round env) now raw self)) = raw) /\
     (forall tiny,
         (forall a, tiny <= a -> 0 < float_round env a) ->
         forall now', tiny <= now' - now ->
           value (update_body (float_round env) now' raw
                    (update_body (float_round env) now raw self)) = raw)) /\
  (line_level env (line self) (S (List.length (trace w))) = Some raw ->
     exists self' w', Debouncer_update env self w = (Ok self', w')).
Proof.
  intros Hzero.
  assert (Hsame : float_round env (now - now) == 0)
    by (apply Hzero; ring).
  split; [|split].
  - intros Hneg. split.
    + intros Hne. rewrite update_body_value, update_body_last_change_time.
      destruct (Bool.eqb raw (_last_value self)) eqn:E.
      * apply eqb_prop in E. contradiction.
      * assert (H : interval self < float_round env (now - now)) by lra.
        apply Qgtb_true_iff in H. rewrite H. reflexivity.
    + intros Hsettled. split; [|apply update_body_last_value].
      rewrite update_body_value, update_body_last_change_time.
      destruct (Bool.eqb raw (_last_value self)) eqn:E.
      * apply eqb_prop in E. destruct (Qgtb _ _); congruence.
      * assert (H : interval self < float_round env (now - now)) by lra.
        apply Qgtb_true_iff in H. rewrite H. reflexivity.
  - intros Hitv Hne.
    assert (E : Bool.eqb raw (_last_value self) = false).
    { destruct (Bool.eqb raw (_last_value self)) eqn:E; [|reflexivity].
      apply eqb_prop in E. contradiction. }
    assert (Hcommit : forall now', 0 < float_round env (now' - now) ->
              value (update_body (float_round env) now' raw
                       (update_body (float_round env) now raw self)) = raw).
    { intros now' Hlater.
      rewrite (update_body_value (float_round env) now' raw
                 (update_body (float_round env) now raw self)).
      rewrite (update_body_last_change_time (float_round env) now' raw
                 (update_body (float_round env) now raw self)).
      rewrite update_body_last_value, eqb_reflx, update_body_interval.
      rewrite update_body_last_change_time, E.
      assert (H : interval self < float_round env (now' - now)) by lra.
      apply Qgtb_true_iff in H. rewrite H. reflexivity. }
    split; [|split].
    + rewrite update_body_value, update_body_last_change_time, E.
      assert (H : float_round env (now - now) <= interval self) by lra.
      apply Qgtb_false_iff in H. rewrite H. reflexivity.
    + exact Hcommit.
    + intros tiny Hpos now' Hlater. apply Hcommit. apply Hpos. exact Hlater.
  - intros Hread. eexists. eexists. apply Debouncer_update_ok. exact Hread.
Qed.

(** ** Reasoning about plugin code *)

Lemma bind_inv {A B} (m : M A) (k : A -> M B) w r w' :
  bind m k w = (r, w') ->
  (exists a w1, m w = (Ok a, w1) /\ k a w1 = (r, w')) \/
  (exists e, m w = (Raise e, w') /\ r = Raise e).
Proof.
  unfold bind. destruct (m w) as [[a | e] w1]; intros H.
  - left. exists a, w1. split; [reflexivity | exact H].
  - right. exists e. inversion H; subst. split; reflexivity.
Qed.

Section Respects.

Variable R : World -> World -> Prop.
Hypothesis R_refl : forall w, R w w.
Hypothesis R_trans : forall a b c, R a b -> R b c -> R a c.

Lemma respects_ret {A} (a : A) : respects R (ret a).
Proof. intros w r w' H. inversion H; subst. apply R_refl. Qed.

Lemma respects_gets {A} (f : World -> A) : respects R (gets f).
Proof. intros w r w' H. inversion H; subst. apply R_refl. Qed.

Lemma respects_modify (f : World -> World) :
  (forall w, R w (f w)) -> respects R (modify f).
Proof. intros Hf w r w' H. inversion H; subst. apply Hf. Qed.

Lemma respects_bind {A B} (m : M A) (k : A -> M B) :
  respects R m -> (forall a, respects R (k a)) -> respects R (bind m k).
Proof.
  intros Hm Hk w r w' H.
  destruct (bind_inv _ _ _ _ _ H) as [(a & w1 & H1 & H2) | (e & H1 & _)].
  - eapply R_trans; [eapply Hm; exact H1 | eapply Hk; exact H2].
  - eapply Hm; exact H1.
Qed.

Lemma respects_when c (body : M unit) :
  respects R body -> respects R (when c body).
Proof. intros Hb. destruct c; simpl; [exact Hb | apply respects_ret]. Qed.

Lemma respects_try (body handler : M unit) :
  respects R body -> respects R handler ->
  respects R (try_except_OSError body handler).
Proof.
  intros Hb Hh w r w' H. unfold try_except_OSError in H.
  destruct (body w) as [[a | e] w1] eqn:E.
  - inversion H; subst. eapply Hb; exact E.
  - destruct e;
      try (inversion H; subst; eapply Hb; exact E).
    eapply R_trans; [eapply Hb; exact E | eapply Hh; exact H].
Qed.

Lemma respects_int_setting (v : IntSetting) : respects R (int_setting v).
Proof.
  intros w r w' H. destruct v; inversion H; subst; apply R_refl.
Qed.

Variable env : Env.

(** An external call is respected as soon as its entry in the trace is. *)
Lemma respects_time_time :
  (forall w, R w (push_event EvTime w)) -> respects R (time_time env).
Proof. intros Hp w r w' H. inversion H; subst. apply Hp. Qed.

Lemma respects_get_value l :
  (forall w, R w (push_event (EvGetValue l) w)) ->
  respects R (Line_get_value env l).
Proof.
  intros Hp w r w' H. unfold Line_get_value in H.
  destruct (line_level env l _); inversion H; subst; apply Hp.
Qed.

Lemma respects_gpiod_call op :
  (forall w, R w (push_event (EvGpiod op) w)) ->
  respects R (gpiod_call env op).
Proof.
  intros Hp w r w' H. unfold gpiod_call in H.
  destruct (gpiod_ok env _); inversion H; subst; apply Hp.
Qed.

Lemma respects_printer_call ev :
  (forall w, R w (push_event ev w)) -> respects R (printer_call env ev).
Proof.
  intros Hp w r w' H. unfold printer_call in H.
  destruct (printer_ok env _); inversion H; subst; apply Hp.
Qed.

Lemma respects_logger_info msg :
  (forall w, R w (push_event (EvLog INFO msg) w)) ->
  respects R (logger_info msg).
Proof. intros Hp. apply respects_modify. exact Hp. Qed.

Lemma respects_logger_error msg :
  (forall w, R w (push_event (EvLog ERROR_LVL msg) w)) ->
  respects R (logger_error msg).
Proof. intros Hp. apply respects_modify. exact Hp. Qed.

Lemma respects_time_sleep :
  (forall w, R w (push_event EvSleep w)) -> respects R time_sleep.
Proof. intros Hp. apply respects_modify. exact Hp. Qed.

Lemma respects_Debouncer_update self :
  (forall w, R w (push_event EvTime w)) ->
  (forall w, R w (push_event (EvGetValue (line self)) w)) ->
  respects R (Debouncer_update env self).
Proof.
  intros Ht Hg. unfold Debouncer_update, Debouncer_raw.
  apply respects_bind; [apply respects_time_time; exact Ht | intros now].
  apply respects_bind; [apply respects_get_value; exact Hg | intros raw].
  apply respects_ret.
Qed.

Lemma respects_Debouncer_new l itv :
  (forall w, R w (push_event EvTime w)) ->
  (forall w, R w (push_event (EvGetValue l) w)) ->
  respects R (Debouncer_new env l itv).
Proof.
  intros Ht Hg. unfold Debouncer_new, Debouncer_raw.
  apply respects_bind; [apply respects_get_value; exact Hg | intros v].
  apply respects_bind; [apply respects_time_time; exact Ht | intros t].
  apply respects_ret.
Qed.

End Respects.

(** Breaks a goal [respects R code] along the structure of [code]; [side]
    closes the conditions on [R]: that it is a preorder, and that it
    holds across the entries pushed and the fields written. *)
Ltac respects_step side :=
  first
    [ apply respects_ret; solve [side]
    | apply respects_gets; solve [side]
    | apply respects_int_setting; solve [side]
    | apply respects_logger_info; solve [side]
    | apply respects_logger_error; solve [side]
    | apply respects_time_sleep; solve [side]
    | apply respects_time_time; solve [side]
    | apply respects_get_value; solve [side]
    | apply respects_gpiod_call; solve [side]
    | apply respects_printer_call; solve [side]
    | apply respects_Debouncer_update; solve [side]
    | apply respects_Debouncer_new; solve [side]
    | apply respects_modify; solve [side]
    | apply respects_when; [solve [side] |]
    | apply respects_try; [solve [side] | |]
    | apply respects_bind; [solve [side] | | intro]
    | match goal with
      | |- respects _ (match ?d with Some _ => _ | None => _ end) => destruct d
      | |- respects _ (if ?c then _ else _) => destruct c
      end ].

Ltac respects_steps side := repeat (respects_step side).

(** *** The relations are preorders that every external call respects *)

Lemma count_cons p ev tr :
  count p (ev :: tr) = if p ev then S (count p tr) else count p tr.
Proof. unfold count. simpl. destruct (p ev); reflexivity. Qed.

Lemma gate_step_refl w : gate_step w w.
Proof. split; [apply Nat.le_refl | left; reflexivity]. Qed.

Lemma gate_step_trans a b c : gate_step a b -> gate_step b c -> gate_step a c.
Proof.
  intros [H1 H2] [K1 K2]. split; [lia|].
  destruct K2 as [K2 | [K2 K3]].
  - destruct H2 as [H2 | [H2 H3]].
    + left. congruence.
    + right. split; [congruence | lia].
  - right. split; [exact K2 | lia].
Qed.

Lemma gate_step_push ev w : gate_step w (push_event ev w).
Proof.
  split; [|left; reflexivity].
  simpl. rewrite count_cons. destruct (is_pause ev); lia.
Qed.

Lemma gate_step_set_runout d w : gate_step w (set_runout_debouncer d w).
Proof. split; [apply Nat.le_refl | left; reflexivity]. Qed.

Lemma gate_step_set_jam d w : gate_step w (set_jam_debouncer d w).
Proof. split; [apply Nat.le_refl | left; reflexivity]. Qed.

Ltac gate_step_side :=
  first [ exact gate_step_refl | exact gate_step_trans
        | intro; apply gate_step_push
        | intro; apply gate_step_set_runout
        | intro; apply gate_step_set_jam ].

(** ** The edge handlers and the gate *)

(** Requesting a pause and closing the gate, taken together. *)
Lemma pause_block_gate env :
  respects gate_step
    (logger_info "Pausing print." ;;
     printer_pause_print env ;;
     modify (set_print_running false))%plugin.
Proof.
  intros w r w' H.
  unfold bind, logger_info, modify, printer_pause_print, printer_call in H.
  simpl in H.
  destruct (printer_ok env _); inversion H; subst; clear H;
    (split; simpl; rewrite !count_cons; simpl;
     [lia | first [right; split; [reflexivity | lia] | left; reflexivity]]).
Qed.

Lemma runout_handler_gate env : respects gate_step (runout_handler env).
Proof.
  unfold runout_handler, printer_commands.
  repeat first [ apply pause_block_gate | respects_step gate_step_side ].
Qed.

Lemma jam_handler_gate env : respects gate_step (jam_handler env).
Proof.
  unfold jam_handler, printer_commands.
  repeat first [ apply pause_block_gate | respects_step gate_step_side ].
Qed.

(** With the gate closed a handler only logs. *)
Lemma runout_handler_inactive env w :
  _print_running w = false ->
  runout_handler env w = (Ok tt, push_event (EvLog INFO "Out of filament!") w).
Proof.
  intros H. unfold runout_handler, bind, logger_info, modify, gets. simpl.
  rewrite H. reflexivity.
Qed.

Lemma jam_handler_inactive env w :
  _print_running w = false ->
  jam_handler env w = (Ok tt, push_event (EvLog INFO "Filament jammed!") w).
Proof.
  intros H. unfold jam_handler, bind, logger_info, modify, gets. simpl.
  rewrite H. reflexivity.
Qed.

Lemma runout_handler_pauses env w :
  (forall k, printer_ok env k = true) ->
  _print_running w = true ->
  runout_pause_print (settings w) = true ->
  exists w1,
    runout_handler env w = (Ok tt, w1) /\
    count is_pause (trace w1) = S (count is_pause (trace w)) /\
    _print_running w1 = false.
Proof.
  intros Hok Hrun Hpause.
  unfold runout_handler, bind, logger_info, modify, gets, when,
    printer_pause_print, printer_commands, printer_call, ret.
  simpl. rewrite Hrun. simpl. rewrite Hpause. simpl. rewrite Hok. simpl.
  destruct (runout_gcode (settings w)) as [| c cs]; simpl.
  - eexists. split; [reflexivity|]. simpl. rewrite !count_cons. simpl.
    split; reflexivity.
  - rewrite Hok. eexists. split; [reflexivity|]. simpl.
    rewrite !count_cons. simpl. split; reflexivity.
Qed.

Lemma jam_handler_pauses env w :
  (forall k, printer_ok env k = true) ->
  _print_running w = true ->
  jammed_pause_print (settings w) = true ->
  exists w1,
    jam_handler env w = (Ok tt, w1) /\
    count is_pause (trace w1) = S (count is_pause (trace w)) /\
    _print_running w1 = false.
Proof.
  intros Hok Hrun Hpause.
  unfold jam_handler, bind, logger_info, modify, gets, when,
    printer_pause_print, printer_commands, printer_call, ret.
  simpl. rewrite Hrun. simpl. rewrite Hpause. simpl. rewrite Hok. simpl.
  destruct (jammed_gcode (settings w)) as [| c cs]; simpl.
  - eexists. split; [reflexivity|]. simpl. rewrite !count_cons. simpl.
    split; reflexivity.
  - rewrite Hok. eexists. split; [reflexivity|]. simpl.
    rewrite !count_cons. simpl. split; reflexivity.
Qed.

(** Updating the debouncers requests nothing from the printer. *)
Ltac no_action_side :=
  first [ intro; repeat split; reflexivity
        | unfold no_action; intros ? ? ? (? & ? & ?) (? & ? & ?);
          repeat split; congruence ].

Lemma poll_runout_no_action env : respects no_action (poll_runout env).
Proof. unfold poll_runout. respects_steps no_action_side. Qed.

Lemma poll_jam_no_action env : respects no_action (poll_jam env).
Proof. unfold poll_jam. respects_steps no_action_side. Qed.

(** A tick whose runout debouncer reports a falling edge. *)
Lemma tick_runout_edge_pauses env w w1 b w2 :
  (forall k, printer_ok env k = true) ->
  _print_running w = true ->
  runout_pause_print (settings w) = true ->
  poll_runout env w = (Ok true, w1) ->
  poll_jam env w1 = (Ok b, w2) ->
  exists w',
    tick env w = (Ok tt, w') /\
    count is_pause (trace w') = S (count is_pause (trace w)) /\
    _print_running w' = false.
Proof.
  intros Hok Hrun Hpause H1 H2.
  destruct (poll_runout_no_action env _ _ _ H1) as (Hs1 & Hg1 & Hc1).
  destruct (poll_jam_no_action env _ _ _ H2) as (Hs2 & Hg2 & Hc2).
  destruct (runout_handler_pauses env w2 Hok) as (w3 & H3 & Hc3 & Hg3);
    [congruence | congruence |].
  unfold tick, bind. rewrite H1, H2. simpl. rewrite H3.
  destruct b; simpl.
  - rewrite (jam_handler_inactive env w3 Hg3). simpl.
    eexists. split; [reflexivity|]. simpl. rewrite !count_cons. simpl.
    split; [congruence | exact Hg3].
  - eexists. split; [reflexivity|]. simpl. rewrite !count_cons. simpl.
    split; [congruence | exact Hg3].
Qed.

(** C6. The printer accepting its calls, the gate open and
    pause-on-trigger set: the runout handler requests exactly one pause and
    closes the gate; called again before the gate is reopened it only
    logs, so no further pause is requested.  The jam handler does the
    same with its own setting.  In the poll loop, a tick in which the
    runout debouncer reports a falling edge requests exactly one pause and
    closes the gate, whatever the jam debouncer reports. *)
Theorem pause_dispatched_once env w :
  (forall k, printer_ok env k = true) ->
  _print_running w = true ->
  (runout_pause_print (settings w) = true ->
   exists w1,
     runout_handler env w = (Ok tt, w1) /\
     count is_pause (trace w1) = S (count is_pause (trace w)) /\
     _print_running w1 = false /\
     runout_handler env w1 =
       (Ok tt, push_event (EvLog INFO "Out of filament!") w1)) /\
  (jammed_pause_print (settings w) = true ->
   exists w1,
     jam_handler env w = (Ok tt, w1) /\
     count is_pause (trace w1) = S (count is_pause (trace w)) /\
     _print_running w1 = false /\
     jam_handler env w1 =
       (Ok tt, push_event (EvLog INFO "Filament jammed!") w1)) /\
  (runout_pause_print (settings w) = true ->
   forall w1 b w2,
     poll_runout env w = (Ok true, w1) ->
     poll_jam env w1 = (Ok b, w2) ->
     exists w',
       tick env w = (Ok tt, w') /\
       count is_pause (trace w') = S (count is_pause (trace w)) /\
       _print_running w' = false).
Proof.
  intros Hok Hrun. split; [|split]; intros Hpause.
  - destruct (runout_handler_pauses env w Hok Hrun Hpause) as (w1 & H1 & H2 & H3).
    exists w1. repeat split; try assumption.
    apply runout_handler_inactive. exact H3.
  - destruct (jam_handler_pauses env w Hok Hrun Hpause) as (w1 & H1 & H2 & H3).
    exists w1. repeat split; try assumption.
    apply jam_handler_inactive. exact H3.
  - intros w1 b w2 H1 H2.
    exact (tick_runout_edge_pauses env w w1 b w2 Hok Hrun Hpause H1 H2).
Qed.

(** ** Print lifecycle events *)

Ltac run_on_event :=
  unfold on_event, bind, when, gets, modify, logger_info,
    printer_cancel_print, printer_call, ret, runout_sensor, jam_sensor;
  simpl.

(** Case analysis on the two sensors of a world given field by field. *)
Ltac sensor_split dr dj :=
  destruct dr as [? |]; destruct dj as [? |];
  repeat match goal with
         | d : Debouncer |- _ =>
             lazymatch goal with
             | H : value d = _ |- _ => fail
             | _ => destruct (value d) eqn:?
             end
         end.

(** Runs the code in the goal through the cases of the printer's answers. *)
Ltac printer_cases env :=
  repeat first
    [ progress simpl
    | match goal with H : value _ = _ |- _ => rewrite H end
    | match goal with
      | |- context [printer_ok env ?k] => destruct (printer_ok env k) eqn:?
      end ].

(** C7. A print-started notification that finds the runout sensor reading
    out-of-filament, or the jam sensor reading jammed, calls
    [cancel_print] while the notification is handled: no line is read and
    no debouncer is updated in between. *)
Theorem print_started_cancels env w :
  runout_sensor w = true \/ jam_sensor w = true ->
  exists r w',
    on_event env PRINT_STARTED w = (r, w') /\
    (count is_cancel (trace w) < count is_cancel (trace w'))%nat /\
    count is_get_value (trace w') = count is_get_value (trace w) /\
    _runout_debouncer w' = _runout_debouncer w /\
    _jam_debouncer w' = _jam_debouncer w.
Proof.
  destruct w as [s dr dj run tr]. run_on_event.
  sensor_split dr dj; printer_cases env;
    intros [Hbad | Hbad]; try discriminate Hbad;
    (eexists; eexists; split; [reflexivity|]; simpl; rewrite !count_cons;
     simpl; repeat split; lia).
Qed.

(** *** Who moves the gate *)

Lemma poll_runout_gate env : respects gate_step (poll_runout env).
Proof. unfold poll_runout. respects_steps gate_step_side. Qed.

Lemma poll_jam_gate env : respects gate_step (poll_jam env).
Proof. unfold poll_jam. respects_steps gate_step_side. Qed.

Lemma tick_gate env : respects gate_step (tick env).
Proof.
  unfold tick.
  repeat first [ apply poll_runout_gate | apply poll_jam_gate
               | apply runout_handler_gate | apply jam_handler_gate
               | respects_step gate_step_side ].
Qed.

Lemma setup_sensor_same_gate env : respects same_gate (_setup_sensor env).
Proof.
  unfold _setup_sensor, close_debouncer.
  respects_steps ltac:(first
    [ intro; reflexivity
    | unfold same_gate; intros ? ? ? ? ?; congruence
    | intros ? ?; reflexivity ]).
Qed.

Lemma gate_step_closed w w' :
  gate_step w w' ->
  _print_running w = true -> _print_running w' = false ->
  (count is_pause (trace w) < count is_pause (trace w'))%nat.
Proof.
  intros [_ [H | [_ H]]] Hopen Hclosed; [congruence | exact H].
Qed.

Lemma on_event_closes_gate env event w r w' :
  on_event env event w = (r, w') ->
  _print_running w = true -> _print_running w' = false ->
  disables_sensor event = true.
Proof.
  destruct w as [s dr dj run tr]. simpl. intros H Hopen Hclosed. subst run.
  destruct event; try reflexivity; exfalso; revert H; run_on_event.
  - sensor_split dr dj; printer_cases env;
      intros H; inversion H; subst; simpl in Hclosed; discriminate Hclosed.
  - intros H; inversion H; subst; simpl in Hclosed; discriminate Hclosed.
  - intros H; inversion H; subst; simpl in Hclosed; discriminate Hclosed.
Qed.

Lemma on_event_started_run env w :
  exists r w',
    on_event env PRINT_STARTED w = (r, w') /\
    (r = Ok tt -> _print_running w' = true) /\
    ((forall k, printer_ok env k = true) -> r = Ok tt).
Proof.
  destruct w as [s dr dj run tr]. run_on_event.
  sensor_split dr dj; printer_cases env;
    (eexists; eexists; split; [reflexivity|]; split;
     [ intros H; first [reflexivity | discriminate]
     | intros Hok; first [reflexivity
                         | repeat match goal with
                                  | E : printer_ok env _ = false |- _ =>
                                      rewrite Hok in E; discriminate
                                  end ] ]).
Qed.

(** C10. A print-started notification that is handled to its end leaves
    the gate open, whether or not the same call has requested a cancel;
    it is handled to its end whenever the printer accepts the cancel.
    Afterwards, a call that finds the gate open and leaves it closed is a
    done, failed, paused, cancelled or error notification, or a handler
    (called directly or from a tick of the poll loop) that has requested
    a pause. *)
Theorem print_started_opens_gate env :
  (forall w, exists r w',
      on_event env PRINT_STARTED w = (r, w') /\
      (r = Ok tt -> _print_running w' = true) /\
      ((forall k, printer_ok env k = true) -> r = Ok tt) /\
      (runout_sensor w = true \/ jam_sensor w = true ->
       (count is_cancel (trace w) < count is_cancel (trace w'))%nat)) /\
  (forall c w r w',
      run_call env c w = (r, w') ->
      _print_running w = true -> _print_running w' = false ->
      (exists event, c = CallOnEvent event /\ disables_sensor event = true) \/
      ((c = CallRunoutHandler \/ c = CallJamHandler \/ c = CallTick) /\
       (count is_pause (trace w) < count is_pause (trace w'))%nat)).
Proof.
  split.
  - intros w.
    destruct (on_event_started_run env w) as (r & w' & Hrun & Hgate & Hok).
    exists r, w'. repeat split; try assumption.
    intros Hbad.
    destruct w as [s dr dj run tr]. revert Hrun Hbad. clear. run_on_event.
    sensor_split dr dj; printer_cases env;
      intros Hrun [Hbad | Hbad]; try discriminate Hbad;
      inversion Hrun; subst; simpl; rewrite !count_cons; simpl; lia.
  - intros c w r w' Hrun Hopen Hclosed. destruct c; simpl in Hrun.
    + left. exists event. split; [reflexivity|].
      eapply on_event_closes_gate; eassumption.
    + right. split; [left; reflexivity|].
      eapply gate_step_closed; try eassumption.
      eapply runout_handler_gate; eassumption.
    + right. split; [right; left; reflexivity|].
      eapply gate_step_closed; try eassumption.
      eapply jam_handler_gate; eassumption.
    + right. split; [right; right; reflexivity|].
      eapply gate_step_closed; try eassumption.
      eapply tick_gate; eassumption.
    + exfalso.
      pose proof (setup_sensor_same_gate env w r w' Hrun) as Hsame.
      unfold same_gate in Hsame. congruence.
Qed.

(** ** The poll loop *)

Lemma sensor_thread_step env fuel w :
  _sensor_thread env (S fuel) w =
  match tick env w with
  | (Ok _, w') => _sensor_thread env fuel w'
  | (Raise e, w') => (Raise e, w')
  end.
Proof. reflexivity. Qed.

Lemma tick_raise_in_poll_runout env w e w' :
  poll_runout env w = (Raise e, w') -> tick env w = (Raise e, w').
Proof. intros H. unfold tick, bind. rewrite H. reflexivity. Qed.

Lemma tick_raise_in_poll_jam env w b w1 e w' :
  poll_runout env w = (Ok b, w1) ->
  poll_jam env w1 = (Raise e, w') ->
  tick env w = (Raise e, w').
Proof. intros H1 H2. unfold tick, bind. rewrite H1, H2. reflexivity. Qed.

Lemma poll_runout_read_failure env w self :
  _runout_debouncer w = Some self ->
  line_level env (line self) (S (List.length (trace w))) = None ->
  poll_runout env w =
  (Raise OSError, push_event (EvGetValue (line self)) (push_event EvTime w)).
Proof.
  intros Hd Hread. unfold poll_runout, bind, gets. rewrite Hd.
  rewrite (Debouncer_update_raise env self w Hread). reflexivity.
Qed.

Lemma poll_jam_read_failure env w self :
  _jam_debouncer w = Some self ->
  line_level env (line self) (S (List.length (trace w))) = None ->
  poll_jam env w =
  (Raise OSError, push_event (EvGetValue (line self)) (push_event EvTime w)).
Proof.
  intros Hd Hread. unfold poll_jam, bind, gets. rewrite Hd.
  rewrite (Debouncer_update_raise env self w Hread). reflexivity.
Qed.

(** C4, as stated, fails.  With an unreadable runout line the first tick
    leaves the loop with [OSError]: nothing is logged and no later tick
    runs, however many iterations are allowed.  With a printer that
    refuses the pause, the exception of the runout handler leaves the
    loop in the same way. *)
Lemma poll_loop_dies_on_exception :
  fst (_sensor_thread unreadable_env 3 printing_world) = Raise OSError /\
  trace (snd (_sensor_thread unreadable_env 3 printing_world)) =
    [EvGetValue gpio4; EvTime] /\
  fst (_sensor_thread printer_down_env 3 printing_world_no_debounce) =
    Raise PrinterException /\
  count is_sleep
    (trace (snd (_sensor_thread printer_down_env 3 printing_world_no_debounce)))
    = 0%nat /\
  count is_log
    (trace (snd (_sensor_thread printer_down_env 3 printing_world_no_debounce)))
    = 2%nat.
Proof. repeat split; vm_compute; reflexivity. Qed.

(** C4, amended.  Nothing is caught in the poll loop.  A read failure of
    the runout line, or of the jam line, leaves [_sensor_thread] with
    [OSError] at that tick: the debouncers are as they were before the
    failed update, nothing is logged, no later tick runs.  An exception of
    the runout or of the jam handler leaves the loop in the same way.
    Polling goes on with the next tick after a tick that raised
    nothing. *)
Theorem poll_loop_stops_on_exception env w fuel :
  (forall self,
      _runout_debouncer w = Some self ->
      line_level env (line self) (S (List.length (trace w))) = None ->
      _sensor_thread env (S fuel) w =
      (Raise OSError,
       push_event (EvGetValue (line self)) (push_event EvTime w))) /\
  (forall b w1 self,
      poll_runout env w = (Ok b, w1) ->
      _jam_debouncer w1 = Some self ->
      line_level env (line self) (S (List.length (trace w1))) = None ->
      _sensor_thread env (S fuel) w =
      (Raise OSError,
       push_event (EvGetValue (line self)) (push_event EvTime w1))) /\
  (forall w1 b w2 e w3,
      poll_runout env w = (Ok true, w1) ->
      poll_jam env w1 = (Ok b, w2) ->
      runout_handler env w2 = (Raise e, w3) ->
      _sensor_thread env (S fuel) w = (Raise e, w3)) /\
  (forall b w1 w2 w3 e w4,
      poll_runout env w = (Ok b, w1) ->
      poll_jam env w1 = (Ok true, w2) ->
      when b (runout_handler env) w2 = (Ok tt, w3) ->
      jam_handler env w3 = (Raise e, w4) ->
      _sensor_thread env (S fuel) w = (Raise e, w4)) /\
  (forall w',
      tick env w = (Ok tt, w') ->
      _sensor_thread env (S fuel) w = _sensor_thread env fuel w').
Proof.
  rewrite sensor_thread_step. repeat split.
  - intros self Hd Hread.
    rewrite (tick_raise_in_poll_runout env w OSError _
               (poll_runout_read_failure env w self Hd Hread)).
    reflexivity.
  - intros b w1 self Hrun Hd Hread.
    rewrite (tick_raise_in_poll_jam env w b w1 OSError _ Hrun
               (poll_jam_read_failure env w1 self Hd Hread)).
    reflexivity.
  - intros w1 b w2 e w3 H1 H2 H3.
    unfold tick, bind. rewrite H1, H2. simpl. rewrite H3. reflexivity.
  - intros b w1 w2 w3 e w4 H1 H2 H3 H4.
    unfold tick, bind. rewrite H1, H2, H3. simpl. rewrite H4. reflexivity.
  - intros w' H. rewrite H. reflexivity.
Qed.

(** ** Status queries *)

Lemma api_get_filament_disabled w :
  api_get_filament w = "-1"%string <-> runout_sensor_enabled w = false.
Proof.
  unfold api_get_filament.
  destruct (runout_sensor_enabled w); [destruct (runout_sensor w) |];
    split; intros H; try reflexivity; discriminate H.
Qed.

Lemma api_get_jammed_disabled w :
  api_get_jammed w = "-1"%string <-> jam_sensor_enabled w = false.
Proof.
  unfold api_get_jammed.
  destruct (jam_sensor_enabled w); [destruct (jam_sensor w) |];
    split; intros H; try reflexivity; discriminate H.
Qed.

(** C5, as stated, fails.  The runout sensor is enabled in the settings,
    [gpiod] refuses the chip, so setup logs the error and leaves no
    debouncer; the status query then answers "1" (filament present), not
    "-1". *)
Lemma broken_runout_sensor_reports_present :
  let w := snd (_setup_sensor gpiod_down_env (plugin_init runout_settings)) in
  runout_sensor_enabled w = true /\
  _runout_debouncer w = None /\
  trace w = [EvLog INFO "Filament jam sensor not configured";
             EvLog ERROR_LVL "Invalid filament runout sensor configuration";
             EvGpiod (Chip_open "gpiochip0")] /\
  api_get_filament w = "1"%string /\
  api_get_filament w <> "-1"%string.
Proof. cbv zeta. repeat split; try (vm_compute; reflexivity). vm_compute. discriminate. Qed.

(** C5, amended.  A sensor that is enabled in the settings and has no
    debouncer is reported like a working sensor at rest: "1" (filament
    present) by the runout query, "0" (not jammed) by the jam query; "-1"
    is answered exactly when the chip setting of the sensor is empty.
    Such a state is what setup leaves when [gpiod] refuses its calls:
    the error is logged, no debouncer is installed, setup returns. *)
Theorem invalid_sensor_status env w :
  (runout_sensor_enabled w = true -> _runout_debouncer w = None ->
   api_get_filament w = "1"%string) /\
  (jam_sensor_enabled w = true -> _jam_debouncer w = None ->
   api_get_jammed w = "0"%string) /\
  (api_get_filament w = "-1"%string <-> runout_chip (settings w) = EmptyString) /\
  (api_get_jammed w = "-1"%string <-> jam_chip (settings w) = EmptyString) /\
  ((forall k, gpiod_ok env k = false) ->
   _runout_debouncer w = None -> _jam_debouncer w = None ->
   exists w',
     _setup_sensor env w = (Ok tt, w') /\
     settings w' = settings w /\
     _runout_debouncer w' = None /\ _jam_debouncer w' = None /\
     (runout_sensor_enabled w = true ->
      In (EvLog ERROR_LVL "Invalid filament runout sensor configuration")
         (trace w') /\
      api_get_filament w' = "1"%string) /\
     (jam_sensor_enabled w = true ->
      In (EvLog ERROR_LVL "Invalid filament jam sensor configuration")
         (trace w') /\
      api_get_jammed w' = "0"%string)).
Proof.
  split; [|split; [|split; [|split]]].
  - intros He Hd. unfold api_get_filament, runout_sensor.
    rewrite He, Hd. reflexivity.
  - intros He Hd. unfold api_get_jammed, jam_sensor.
    rewrite He, Hd. reflexivity.
  - rewrite api_get_filament_disabled. unfold runout_sensor_enabled.
    rewrite negb_false_iff. apply String.eqb_eq.
  - rewrite api_get_jammed_disabled. unfold jam_sensor_enabled.
    rewrite negb_false_iff. apply String.eqb_eq.
  - intros Hdown Hr Hj. destruct w as [s dr dj run tr]. simpl in Hr, Hj.
    subst dr dj.
    unfold _setup_sensor, close_debouncer, try_except_OSError, bind, gets,
      when, modify, ret, logger_info, logger_error, gpiod_call,
      api_get_filament, api_get_jammed, runout_sensor, jam_sensor,
      runout_sensor_enabled, jam_sensor_enabled.
    simpl.
    destruct (negb (String.eqb (runout_chip s) EmptyString)) eqn:Er;
      destruct (negb (String.eqb (jam_chip s) EmptyString)) eqn:Ej;
      repeat (progress (simpl; rewrite ?Hdown, ?Er, ?Ej));
      (eexists; split; [reflexivity|]; simpl;
       repeat split; try reflexivity; try discriminate;
       simpl; rewrite ?Er, ?Ej; auto).
Qed.

(** * Concrete instances *)

(** C1 on a run: the line reads low once, the change is recorded at time
    0 and is not yet committed. *)
Lemma Debouncer_update_spec_witness :
  line_level working_env (line one_second_debouncer)
             (S (List.length (trace printing_world))) = Some false /\
  exists self' w',
    Debouncer_update working_env one_second_debouncer printing_world =
      (Ok self', w') /\
    count is_get_value (trace w') = 1%nat /\
    _last_value self' = false /\
    _last_change_time self' = seconds 0 /\
    value self' = true /\
    rising self' = false /\ falling self' = false.
Proof.
  split; [reflexivity|].
  destruct (Debouncer_update_spec working_env one_second_debouncer
              printing_world false eq_refl)
    as (self' & w' & Hrun & Hcount & Hchg & _ & _ & Hkeep & Hr & Hf).
  destruct Hchg as [Hlast Htime]; [simpl; discriminate|].
  assert (Hv : value self' = true).
  { apply Hkeep. rewrite Htime. intros H. vm_compute in H. discriminate H. }
  exists self', w'. rewrite Hr, Hf, Hv.
  repeat split; assumption || reflexivity.
Defined.

(** C2 on a run: a glitch of two samples inside a window of one second,
    with the rounding of doubles. *)
Lemma isolated_glitch_suppressed_witness :
  (forall a, a <= interval one_second_debouncer ->
             round_double a <= interval one_second_debouncer) /\
  0 < interval one_second_debouncer /\
  _last_value one_second_debouncer = value one_second_debouncer /\
  (forall t r, In (t, r) glitch_calls -> r <> value one_second_debouncer ->
               (1 # 5) <= t /\ t <= (1 # 5) + interval one_second_debouncer) /\
  Forall (fun s' => value s' = value one_second_debouncer /\
                    rising s' = false /\ falling s' = false)
         (run_updates round_double glitch_calls one_second_debouncer).
Proof.
  assert (Hround : forall a, a <= interval one_second_debouncer ->
                   round_double a <= interval one_second_debouncer).
  { intros a. apply (round_double_le 1). split; [discriminate | reflexivity]. }
  assert (Hwin : forall t r, In (t, r) glitch_calls ->
                 r <> value one_second_debouncer ->
                 (1 # 5) <= t /\ t <= (1 # 5) + interval one_second_debouncer).
  { intros t r Hin Hne. simpl in Hin.
    repeat (destruct Hin as [Hin | Hin];
            [inversion Hin; subst;
             first [ exfalso; apply Hne; reflexivity
                   | split; vm_compute; discriminate ] |]).
    contradiction. }
  split; [exact Hround|].
  split; [reflexivity|]. split; [reflexivity|]. split; [exact Hwin|].
  apply (isolated_glitch_suppressed round_double one_second_debouncer (1 # 5)
           glitch_calls);
    [exact Hround | reflexivity | reflexivity | exact Hwin].
Defined.

(** C3 on runs, with the rounding of doubles: the negative interval
    commits at once, interval zero on the next later update. *)
Lemma degenerate_interval_commit_witness :
  (forall a, a == 0 -> float_round working_env a == 0) /\
  interval negative_interval_debouncer < 0 /\
  value (update_body round_double 1 false negative_interval_debouncer) = false /\
  interval zero_interval_debouncer == 0 /\
  value (update_body round_double 1 false zero_interval_debouncer) = true /\
  0 < round_double (2 - 1) /\
  value (update_body round_double 2 false
           (update_body round_double 1 false zero_interval_debouncer))
    = false.
Proof.
  assert (Hzero : forall a, a == 0 -> float_round working_env a == 0)
    by exact round_double_zero.
  assert (Hlater : 0 < round_double (2 - 1)) by reflexivity.
  split; [exact Hzero|].
  split; [reflexivity|]. split.
  { apply (proj1 (proj1 (degenerate_interval_commit working_env printing_world
                           1 false negative_interval_debouncer Hzero)
                        eq_refl)).
    simpl. discriminate. }
  split; [reflexivity|].
  destruct (proj1 (proj2 (degenerate_interval_commit working_env printing_world
                            1 false zero_interval_debouncer Hzero)))
    as (Hkeep & Hnext & _).
  - reflexivity.
  - simpl; discriminate.
  - split; [exact Hkeep|]. split; [exact Hlater|]. apply Hnext. exact Hlater.
Defined.

(** C8 on a run. *)
Lemma rising_falling_exclusive_witness :
  rising (update_body round_double 5 false one_second_debouncer) &&
  falling (update_body round_double 5 false one_second_debouncer) = false.
Proof.
  exact (proj1 (rising_falling_exclusive round_double 5 false
                  one_second_debouncer)).
Defined.

(** C6 on a run. *)
Lemma pause_dispatched_once_witness :
  (forall k, printer_ok working_env k = true) /\
  _print_running printing_world = true /\
  runout_pause_print (settings printing_world) = true /\
  exists w1,
    runout_handler working_env printing_world = (Ok tt, w1) /\
    count is_pause (trace w1) = S (count is_pause (trace printing_world)) /\
    _print_running w1 = false /\
    runout_handler working_env w1 =
      (Ok tt, push_event (EvLog INFO "Out of filament!") w1).
Proof.
  split; [intros k; reflexivity|]. split; [reflexivity|].
  split; [reflexivity|].
  apply (proj1 (pause_dispatched_once working_env printing_world
                  (fun k => eq_refl) eq_refl)).
  reflexivity.
Defined.

(** C7 on a run. *)
Lemma print_started_cancels_witness :
  (runout_sensor out_of_filament_world = true \/
   jam_sensor out_of_filament_world = true) /\
  exists r w',
    on_event working_env PRINT_STARTED out_of_filament_world = (r, w') /\
    (count is_cancel (trace out_of_filament_world)
     < count is_cancel (trace w'))%nat /\
    count is_get_value (trace w') =
      count is_get_value (trace out_of_filament_world) /\
    _runout_debouncer w' = _runout_debouncer out_of_filament_world /\
    _jam_debouncer w' = _jam_debouncer out_of_filament_world.
Proof.
  split; [left; reflexivity|].
  apply (print_started_cancels working_env out_of_filament_world).
  left. reflexivity.
Defined.

(** C10 on a run: the print is cancelled and the gate is opened by the
    same call. *)
Lemma print_started_opens_gate_witness :
  exists r w',
    on_event working_env PRINT_STARTED out_of_filament_world = (r, w') /\
    r = Ok tt /\ _print_running w' = true /\
    (count is_cancel (trace out_of_filament_world)
     < count is_cancel (trace w'))%nat.
Proof.
  destruct (proj1 (print_started_opens_gate working_env) out_of_filament_world)
    as (r & w' & Hrun & Hgate & Hok & Hcancel).
  exists r, w'.
  assert (Hr : r = Ok tt) by (apply Hok; intros k; reflexivity).
  repeat split; [exact Hrun | exact Hr | apply Hgate; exact Hr |].
  apply Hcancel. left. reflexivity.
Defined.

(** C4 on a run: the unreadable line ends the loop, whatever the fuel. *)
Lemma poll_loop_stops_on_exception_witness :
  _runout_debouncer printing_world = Some one_second_debouncer /\
  line_level unreadable_env (line one_second_debouncer)
             (S (List.length (trace printing_world))) = None /\
  _sensor_thread unreadable_env 10 printing_world =
    (Raise OSError,
     push_event (EvGetValue gpio4) (push_event EvTime printing_world)).
Proof.
  split; [reflexivity|]. split; [reflexivity|].
  apply (proj1 (poll_loop_stops_on_exception unreadable_env printing_world 9)
               one_second_debouncer); reflexivity.
Defined.

(** C5 on a run: setup with [gpiod] refusing every call. *)
Lemma invalid_sensor_status_witness :
  (forall k, gpiod_ok gpiod_down_env k = false) /\
  runout_sensor_enabled (plugin_init runout_settings) = true /\
  exists w',
    _setup_sensor gpiod_down_env (plugin_init runout_settings) = (Ok tt, w') /\
    _runout_debouncer w' = None /\
    api_get_filament w' = "1"%string.
Proof.
  split; [intros k; reflexivity|]. split; [reflexivity|].
  destruct (proj2 (proj2 (proj2 (proj2
              (invalid_sensor_status gpiod_down_env (plugin_init runout_settings)))))
              (fun k => eq_refl) eq_refl eq_refl)
    as (w' & Hrun & _ & Hr & _ & Hrunout & _).
  exists w'. repeat split; [exact Hrun | exact Hr |].
  apply Hrunout. reflexivity.
Defined.

(** * Further properties of the debouncer *)

Lemma edge_update_body round t r s :
  edge (update_body round t r s) = xorb (value (update_body round t r s)) (value s).
Proof.
  unfold edge. rewrite update_body_rising, update_body_falling.
  destruct (value (update_body round t r s)), (value s); reflexivity.
Qed.

Lemma update_body_value_cases round t r s :
  value (update_body round t r s) = r \/ value (update_body round t r s) = value s.
Proof.
  rewrite update_body_value. destruct (Qgtb _ _); [left | right]; reflexivity.
Qed.

Lemma never_held_run round (calls : list (Q * bool)) :
  forall s : Debouncer,
    (forall a, a <= interval s -> round a <= interval s) ->
    0 <= interval s ->
    never_held (interval s) (_last_value s) (_last_change_time s) calls ->
    Forall (fun s' => value s' = value s /\ edge s' = false)
           (run_updates round calls s).
Proof.
  induction calls as [| [t r] rest IH]; intros s Hround Hpos Hheld.
  - constructor.
  - simpl in Hheld. simpl.
    assert (Hstep : value (update_body round t r s) = value s /\
                    never_held (interval s) r
                               (_last_change_time (update_body round t r s)) rest).
    { rewrite update_body_value, update_body_last_change_time.
      destruct (Bool.eqb r (_last_value s)) eqn:E.
      - destruct Hheld as [Hle Hrest].
        apply Hround in Hle.
        apply Qgtb_false_iff in Hle. rewrite Hle. split; [reflexivity|].
        apply eqb_prop in E. rewrite E. exact Hrest.
      - assert (Hle : t - t <= interval s) by lra.
        apply Hround in Hle.
        apply Qgtb_false_iff in Hle. rewrite Hle.
        split; [reflexivity | exact Hheld]. }
    destruct Hstep as [Hv Hrest].
    constructor.
    + split; [exact Hv|]. rewrite edge_update_body, Hv. apply xorb_nilpotent.
    + specialize (IH (update_body round t r s)).
      rewrite update_body_interval, update_body_last_value, Hv in IH.
      apply IH; assumption.
Qed.

(** X1. A line that bounces for ever is suppressed for ever: if no level
    is ever sampled held for longer than the interval (counted from the
    first sample of its run), the stable value never changes and no edge
    is reported, however long the sequence of updates.  The rounding of
    the float subtraction does not carry a difference that is at most
    the interval above the interval ([round_double_le]). *)
Theorem bouncing_line_never_commits (round : Q -> Q)
        (calls : list (Q * bool)) (s : Debouncer) :
  (forall a, a <= interval s -> round a <= interval s) ->
  0 <= interval s ->
  never_held (interval s) (_last_value s) (_last_change_time s) calls ->
  Forall (fun s' => value s' = value s /\ edge s' = false)
         (run_updates round calls s).
Proof. apply never_held_run. Qed.

Lemma steady_level_stays round (calls : list (Q * bool)) (r : bool) :
  forall s : Debouncer,
    (forall t r', In (t, r') calls -> r' = r) ->
    value s = r ->
    value (after_updates round calls s) = r.
Proof.
  induction calls as [| [t r0] rest IH]; intros s Hall Hv; [exact Hv|].
  assert (r0 = r) by (apply (Hall t r0); left; reflexivity). subst r0.
  unfold after_updates. simpl. apply IH.
  - intros t' r' Hin. apply (Hall t' r'). right. exact Hin.
  - destruct (update_body_value_cases round t r s) as [H | H]; congruence.
Qed.

(** X2. While the raw line holds one level, at most one edge is reported:
    none if the stable value already is that level, otherwise exactly one
    if the level has been committed by the end of the run and none if it
    has not; the edge is rising for a high level and falling for a low
    one. *)
Theorem steady_level_one_edge round (calls : list (Q * bool)) (r : bool) :
  forall s : Debouncer,
    (forall t r', In (t, r') calls -> r' = r) ->
    List.length (filter edge (run_updates round calls s)) =
      (if Bool.eqb (value s) r then 0
       else if Bool.eqb (value (after_updates round calls s)) r then 1 else 0)%nat /\
    Forall (fun s' => edge s' = true -> rising s' = r /\ falling s' = negb r)
           (run_updates round calls s).
Proof.
  induction calls as [| [t r0] rest IH]; intros s Hall.
  - simpl. split; [|constructor].
    destruct (Bool.eqb (value s) r); reflexivity.
  - assert (r0 = r) by (apply (Hall t r0); left; reflexivity). subst r0.
    assert (Hrest : forall t' r', In (t', r') rest -> r' = r)
      by (intros t' r' Hin; apply (Hall t' r'); right; exact Hin).
    destruct (IH (update_body round t r s) Hrest) as [IHn IHd].
    change (after_updates round ((t, r) :: rest) s)
      with (after_updates round rest (update_body round t r s)).
    split.
    + simpl. rewrite edge_update_body.
      destruct (update_body_value_cases round t r s) as [Hv | Hv].
      * rewrite (steady_level_stays round rest r _ Hrest Hv).
        rewrite Hv, eqb_reflx in IHn. rewrite Hv, eqb_reflx.
        destruct (Bool.eqb (value s) r) eqn:E.
        -- apply eqb_prop in E. rewrite E, xorb_nilpotent. exact IHn.
        -- assert (Hx : xorb r (value s) = true)
             by (destruct r, (value s); try reflexivity; discriminate E).
           rewrite Hx. simpl. rewrite IHn. reflexivity.
      * rewrite Hv in IHn. rewrite Hv, xorb_nilpotent. exact IHn.
    + simpl. constructor; [|exact IHd].
      rewrite edge_update_body, update_body_rising, update_body_falling.
      destruct (update_body_value_cases round t r s) as [Hv | Hv]; rewrite Hv.
      * destruct r, (value s); simpl; intros H; try discriminate H;
          split; reflexivity.
      * rewrite xorb_nilpotent. intros H. discriminate H.
Qed.

Lemma held_level_run round (calls : list (Q * bool)) (r : bool) :
  forall s : Debouncer,
    (forall t r', In (t, r') calls -> r' = r) ->
    _last_value s = r ->
    Forall2 (fun call s' =>
               _last_change_time s' = _last_change_time s /\
               (interval s < round (fst call - _last_change_time s) ->
                value s' = r))
            calls (run_updates round calls s).
Proof.
  induction calls as [| [t r0] rest IH]; intros s Hall Hlast.
  - constructor.
  - assert (r0 = r) by (apply (Hall t r0); left; reflexivity). subst r0.
    assert (Hlct : _last_change_time (update_body round t r s) = _last_change_time s).
    { rewrite update_body_last_change_time, Hlast, eqb_reflx. reflexivity. }
    simpl. constructor.
    + split; [exact Hlct|].
      cbn [fst]. intros Hlt. rewrite update_body_value, Hlct.
      apply Qgtb_true_iff in Hlt. rewrite Hlt. reflexivity.
    + specialize (IH (update_body round t r s)).
      rewrite Hlct, update_body_interval in IH.
      eapply Forall2_impl; [|apply IH].
      * intros call s' (H1 & H2). split; assumption.
      * intros t' r' Hin. apply (Hall t' r'). right. exact Hin.
      * apply update_body_last_value.
Qed.

(** X3. The debounce delay.  After the update that records a raw change
    at time [t0], and while the line holds the new level: the time of the
    change stays [t0]; every update for which the float difference
    [now - t0] exceeds the interval leaves the stable value on the new
    level; and if the interval is not negative and no update comes later
    than [interval] after [t0], the stable value is never changed (the
    rounding does not carry a difference that is at most the interval
    above it). *)
Theorem held_change_commits (round : Q -> Q) (d : Debouncer) (t0 : Q)
        (r : bool) (calls : list (Q * bool)) :
  r <> _last_value d ->
  (forall t r', In (t, r') calls -> r' = r) ->
  Forall2 (fun call s' =>
             _last_change_time s' = t0 /\
             (interval d < round (fst call - t0) -> value s' = r))
          calls (run_updates round calls (update_body round t0 r d)) /\
  ((forall a, a <= interval d -> round a <= interval d) ->
   0 <= interval d ->
   (forall t r', In (t, r') calls -> t - t0 <= interval d) ->
   value (update_body round t0 r d) = value d /\
   Forall (fun s' => value s' = value d /\ edge s' = false)
          (run_updates round calls (update_body round t0 r d))).
Proof.
  intros Hne Hall.
  assert (E : Bool.eqb r (_last_value d) = false).
  { destruct (Bool.eqb r (_last_value d)) eqn:E; [|reflexivity].
    apply eqb_prop in E. contradiction. }
  assert (Hlct : _last_change_time (update_body round t0 r d) = t0).
  { rewrite update_body_last_change_time, E. reflexivity. }
  split.
  - pose proof (held_level_run round calls r (update_body round t0 r d) Hall
                  (update_body_last_value round t0 r d)) as H.
    rewrite Hlct, update_body_interval in H. exact H.
  - intros Hround Hpos Hearly.
    assert (Hv : value (update_body round t0 r d) = value d).
    { rewrite update_body_value, Hlct.
      assert (Hle : t0 - t0 <= interval d) by lra.
      apply Hround in Hle.
      apply Qgtb_false_iff in Hle. rewrite Hle. reflexivity. }
    split; [exact Hv|].
    rewrite <- Hv.
    apply never_held_run.
    + rewrite update_body_interval. exact Hround.
    + rewrite update_body_interval. exact Hpos.
    + rewrite update_body_interval, update_body_last_value, Hlct.
      clear - Hall Hearly. induction calls as [| [t r0] rest IH]; [exact I|].
      assert (r0 = r) by (apply (Hall t r0); left; reflexivity). subst r0.
      simpl. rewrite eqb_reflx. split.
      * apply (Hearly t r). left. reflexivity.
      * apply IH.
        -- intros t' r' Hin. apply (Hall t' r'). right. exact Hin.
        -- intros t' r' Hin. apply (Hearly t' r'). right. exact Hin.
Qed.

(** * Further properties of the poll loop *)

Lemma poll_runout_eq env w :
  poll_runout env w =
  match _runout_debouncer w with
  | None => (Ok false, w)
  | Some self =>
      match line_level env (line self) (S (List.length (trace w))) with
      | Some raw =>
          let self' := update_body (float_round env) (clock env (List.length (trace w))) raw self in
          (Ok (falling self'),
           set_runout_debouncer (Some self')
             (push_event (EvGetValue (line self)) (push_event EvTime w)))
      | None =>
          (Raise OSError,
           push_event (EvGetValue (line self)) (push_event EvTime w))
      end
  end.
Proof.
  unfold poll_runout, bind, gets.
  destruct (_runout_debouncer w) as [self |]; [|reflexivity].
  destruct (line_level env (line self) (S (List.length (trace w)))) as [raw |] eqn:E.
  - rewrite (Debouncer_update_ok env self w raw E). reflexivity.
  - rewrite (Debouncer_update_raise env self w E). reflexivity.
Qed.

Lemma poll_jam_eq env w :
  poll_jam env w =
  match _jam_debouncer w with
  | None => (Ok false, w)
  | Some self =>
      match line_level env (line self) (S (List.length (trace w))) with
      | Some raw =>
          let self' := update_body (float_round env) (clock env (List.length (trace w))) raw self in
          (Ok (rising self'),
           set_jam_debouncer (Some self')
             (push_event (EvGetValue (line self)) (push_event EvTime w)))
      | None =>
          (Raise OSError,
           push_event (EvGetValue (line self)) (push_event EvTime w))
      end
  end.
Proof.
  unfold poll_jam, bind, gets.
  destruct (_jam_debouncer w) as [self |]; [|reflexivity].
  destruct (line_level env (line self) (S (List.length (trace w)))) as [raw |] eqn:E.
  - rewrite (Debouncer_update_ok env self w raw E). reflexivity.
  - rewrite (Debouncer_update_raise env self w E). reflexivity.
Qed.

Lemma tick_eq env w :
  tick env w =
  match poll_runout env w with
  | (Raise e, w1) => (Raise e, w1)
  | (Ok runout_triggered, w1) =>
      match poll_jam env w1 with
      | (Raise e, w2) => (Raise e, w2)
      | (Ok jam_triggered, w2) =>
          match when runout_triggered (runout_handler env) w2 with
          | (Raise e, w3) => (Raise e, w3)
          | (Ok _, w3) =>
              match when jam_triggered (jam_handler env) w3 with
              | (Raise e, w4) => (Raise e, w4)
              | (Ok _, w4) => (Ok tt, push_event EvSleep w4)
              end
          end
      end
  end.
Proof.
  unfold tick, bind, time_sleep, modify.
  destruct (poll_runout env w) as [[b1 | e1] w1]; [|reflexivity].
  destruct (poll_jam env w1) as [[b2 | e2] w2]; [|reflexivity].
  destruct (when b1 (runout_handler env) w2) as [[u3 | e3] w3]; [|reflexivity].
  destruct (when b2 (jam_handler env) w3) as [[u4 | e4] w4]; reflexivity.
Qed.

Ltac no_sampling_side :=
  first [ intro; repeat split; reflexivity
        | unfold no_sampling;
          intros ? ? ? (? & ? & ? & ? & ?) (? & ? & ? & ? & ?);
          repeat split; congruence ].

Lemma runout_handler_no_sampling env : respects no_sampling (runout_handler env).
Proof.
  unfold runout_handler, printer_pause_print, printer_commands.
  respects_steps no_sampling_side.
Qed.

Lemma jam_handler_no_sampling env : respects no_sampling (jam_handler env).
Proof.
  unfold jam_handler, printer_pause_print, printer_commands.
  respects_steps no_sampling_side.
Qed.

Lemma when_handler_no_sampling (b : bool) (h : M unit) :
  respects no_sampling h -> respects no_sampling (when b h).
Proof.
  intros Hh. apply respects_when; [|exact Hh].
  intro; repeat split; reflexivity.
Qed.

Lemma poll_runout_facts env w r w1 :
  poll_runout env w = (r, w1) ->
  settings w1 = settings w /\
  _print_running w1 = _print_running w /\
  _jam_debouncer w1 = _jam_debouncer w /\
  installed (_runout_debouncer w1) = installed (_runout_debouncer w) /\
  count is_printer_call (trace w1) = count is_printer_call (trace w) /\
  count is_sleep (trace w1) = count is_sleep (trace w) /\
  count is_get_value (trace w1) =
    (count is_get_value (trace w) + installed (_runout_debouncer w))%nat /\
  count is_time (trace w1) =
    (count is_time (trace w) + installed (_runout_debouncer w))%nat /\
  (r = Ok true ->
   exists old new,
     _runout_debouncer w = Some old /\ _runout_debouncer w1 = Some new /\
     value old = true /\ value new = false).
Proof.
  rewrite poll_runout_eq.
  destruct (_runout_debouncer w) as [self |] eqn:Ed.
  - destruct (line_level env (line self) _) as [raw |]; cbv zeta;
      [remember (update_body (float_round env) (clock env (List.length (trace w))) raw self)
         as self' eqn:Eself |];
      intros H; inversion H; subst r w1; clear H; simpl;
      rewrite ?Ed, !count_cons; simpl;
      repeat split; try lia; try discriminate.
    intros Hr. injection Hr as Hf. exists self, self'.
    split; [reflexivity|]. split; [reflexivity|].
    rewrite Eself in Hf |- *. rewrite update_body_falling in Hf.
    apply andb_true_iff in Hf. destruct Hf as [Hn Ho].
    apply negb_true_iff in Hn. split; assumption.
  - intros H. inversion H; subst; clear H. rewrite Ed. simpl.
    repeat split; try lia. discriminate.
Qed.

Lemma poll_jam_facts env w r w1 :
  poll_jam env w = (r, w1) ->
  settings w1 = settings w /\
  _print_running w1 = _print_running w /\
  _runout_debouncer w1 = _runout_debouncer w /\
  installed (_jam_debouncer w1) = installed (_jam_debouncer w) /\
  count is_printer_call (trace w1) = count is_printer_call (trace w) /\
  count is_sleep (trace w1) = count is_sleep (trace w) /\
  count is_get_value (trace w1) =
    (count is_get_value (trace w) + installed (_jam_debouncer w))%nat /\
  count is_time (trace w1) =
    (count is_time (trace w) + installed (_jam_debouncer w))%nat /\
  (r = Ok true ->
   exists old new,
     _jam_debouncer w = Some old /\ _jam_debouncer w1 = Some new /\
     value old = false /\ value new = true).
Proof.
  rewrite poll_jam_eq.
  destruct (_jam_debouncer w) as [self |] eqn:Ed.
  - destruct (line_level env (line self) _) as [raw |]; cbv zeta;
      [remember (update_body (float_round env) (clock env (List.length (trace w))) raw self)
         as self' eqn:Eself |];
      intros H; inversion H; subst r w1; clear H; simpl;
      rewrite ?Ed, !count_cons; simpl;
      repeat split; try lia; try discriminate.
    intros Hr. injection Hr as Hf. exists self, self'.
    split; [reflexivity|]. split; [reflexivity|].
    rewrite Eself in Hf |- *. rewrite update_body_rising in Hf.
    apply andb_true_iff in Hf. destruct Hf as [Hn Ho].
    apply negb_true_iff in Ho. split; assumption.
  - intros H. inversion H; subst; clear H. rewrite Ed. simpl.
    repeat split; try lia. discriminate.
Qed.

(** What one iteration adds to the trace when it completes. *)
Lemma tick_counts env w w' :
  tick env w = (Ok tt, w') ->
  installed (_runout_debouncer w') = installed (_runout_debouncer w) /\
  installed (_jam_debouncer w') = installed (_jam_debouncer w) /\
  count is_sleep (trace w') = S (count is_sleep (trace w)) /\
  count is_get_value (trace w') =
    (count is_get_value (trace w) + installed (_runout_debouncer w)
     + installed (_jam_debouncer w))%nat /\
  count is_time (trace w') =
    (count is_time (trace w) + installed (_runout_debouncer w)
     + installed (_jam_debouncer w))%nat.
Proof.
  rewrite tick_eq.
  destruct (poll_runout env w) as [[b1 | e1] w1] eqn:E1; [|discriminate].
  destruct (poll_jam env w1) as [[b2 | e2] w2] eqn:E2; [|discriminate].
  destruct (when b1 (runout_handler env) w2) as [[u3 | e3] w3] eqn:E3;
    [|discriminate].
  destruct (when b2 (jam_handler env) w3) as [[u4 | e4] w4] eqn:E4;
    [|discriminate].
  intros H. inversion H; subst; clear H.
  destruct (poll_runout_facts _ _ _ _ E1) as (_ & _ & Hj1 & Hi1 & _ & Hs1 & Hg1 & Ht1 & _).
  destruct (poll_jam_facts _ _ _ _ E2) as (_ & _ & Hr2 & Hi2 & _ & Hs2 & Hg2 & Ht2 & _).
  destruct (when_handler_no_sampling b1 _ (runout_handler_no_sampling env) _ _ _ E3)
    as (Hr3 & Hj3 & Hg3 & Ht3 & Hs3).
  destruct (when_handler_no_sampling b2 _ (jam_handler_no_sampling env) _ _ _ E4)
    as (Hr4 & Hj4 & Hg4 & Ht4 & Hs4).
  simpl. rewrite !count_cons. simpl.
  rewrite Hr4, Hr3, Hr2, Hj4, Hj3, Hi2, Hj1, Hi1.
  rewrite Hs4, Hs3, Hs2, Hs1, Hg4, Hg3, Hg2, Hg1, Ht4, Ht3, Ht2, Ht1, Hj1.
  repeat split; lia.
Qed.

(** X4. The cadence of the loop: after [n] completed iterations the loop
    has slept exactly [n] times, and has read the clock and sampled the
    line exactly once per iteration for each sensor that has a
    debouncer; the set of installed debouncers is not changed by
    polling. *)
Theorem sensor_thread_counts env (n : nat) :
  forall w w',
    _sensor_thread env n w = (Ok tt, w') ->
    installed (_runout_debouncer w') = installed (_runout_debouncer w) /\
    installed (_jam_debouncer w') = installed (_jam_debouncer w) /\
    count is_sleep (trace w') = (count is_sleep (trace w) + n)%nat /\
    count is_get_value (trace w') =
      (count is_get_value (trace w)
       + n * (installed (_runout_debouncer w) + installed (_jam_debouncer w)))%nat /\
    count is_time (trace w') =
      (count is_time (trace w)
       + n * (installed (_runout_debouncer w) + installed (_jam_debouncer w)))%nat.
Proof.
  induction n as [| n IH]; intros w w' H.
  - inversion H; subst. repeat split; lia.
  - rewrite sensor_thread_step in H.
    destruct (tick env w) as [[[] | e] w1] eqn:E; [|discriminate].
    destruct (tick_counts env w w1 E) as (Hr & Hj & Hs & Hg & Ht).
    destruct (IH w1 w' H) as (Hr' & Hj' & Hs' & Hg' & Ht').
    rewrite Hr', Hj', Hs', Hg', Ht', Hr, Hj, Hs, Hg, Ht.
    repeat split; lia.
Qed.

(** X5. With no debouncer installed the loop does no work: every
    iteration only sleeps; no clock, line, logger or printer call is
    made and the state is left as it is. *)
Theorem sensor_thread_without_sensors env (n : nat) :
  forall w,
    _runout_debouncer w = None ->
    _jam_debouncer w = None ->
    _sensor_thread env n w =
    (Ok tt,
     mkWorld (settings w) None None (_print_running w)
             (repeat EvSleep n ++ trace w)).
Proof.
  induction n as [| n IH]; intros w Hr Hj.
  - destruct w as [s dr dj run tr]. simpl in Hr, Hj. subst. reflexivity.
  - rewrite sensor_thread_step, tick_eq, poll_runout_eq, Hr, poll_jam_eq, Hj.
    simpl. rewrite IH by (simpl; assumption). simpl.
    replace (EvSleep :: repeat EvSleep n ++ trace w)
      with (repeat EvSleep n ++ EvSleep :: trace w); [reflexivity|].
    clear. induction n as [| n IHn]; [reflexivity|].
    simpl. rewrite IHn. reflexivity.
Qed.

Ltac closed_gate_side :=
  first [ intros ? ?; split; reflexivity
        | unfold closed_gate_quiet; intros ? ? ? Hab Hbc Hclosed;
          destruct (Hab Hclosed) as [Hb Hcb];
          destruct (Hbc Hb) as [Hc Hcc]; split; congruence
        | intros ? ?; split; [assumption | reflexivity] ].

Lemma runout_handler_closed_gate env :
  respects closed_gate_quiet (runout_handler env).
Proof.
  intros w r w' H Hclosed.
  rewrite (runout_handler_inactive env w Hclosed) in H.
  inversion H; subst. split; [exact Hclosed | reflexivity].
Qed.

Lemma jam_handler_closed_gate env :
  respects closed_gate_quiet (jam_handler env).
Proof.
  intros w r w' H Hclosed.
  rewrite (jam_handler_inactive env w Hclosed) in H.
  inversion H; subst. split; [exact Hclosed | reflexivity].
Qed.

Lemma tick_closed_gate env : respects closed_gate_quiet (tick env).
Proof.
  unfold tick, poll_runout, poll_jam.
  repeat first [ apply runout_handler_closed_gate
               | apply jam_handler_closed_gate
               | respects_step closed_gate_side ].
Qed.

(** X6. While no print is running the poll loop never calls the printer
    (no pause, no cancel, no G-code) and never opens the gate, whatever
    the lines do and however the loop ends. *)
Theorem idle_loop_never_calls_printer env (n : nat) :
  forall w r w',
    _print_running w = false ->
    _sensor_thread env n w = (r, w') ->
    _print_running w' = false /\
    count is_printer_call (trace w') = count is_printer_call (trace w).
Proof.
  induction n as [| n IH]; intros w r w' Hclosed H.
  - inversion H; subst. split; [exact Hclosed | reflexivity].
  - rewrite sensor_thread_step in H.
    destruct (tick env w) as [[u | e] w1] eqn:E.
    + destruct (tick_closed_gate env w _ w1 E Hclosed) as [Hc1 Hn1].
      destruct (IH w1 r w' Hc1 H) as [Hc Hn]. split; congruence.
    + inversion H; subst.
      exact (tick_closed_gate env w _ w' E Hclosed).
Qed.

(** X7. A tick calls the printer only for a transition of a stable value:
    if the printer has been called during a tick, a print was running and
    either the runout debouncer went from true to false in that tick or
    the jam debouncer went from false to true. *)
Theorem printer_called_only_on_transition env w r w' :
  tick env w = (r, w') ->
  (count is_printer_call (trace w) < count is_printer_call (trace w'))%nat ->
  _print_running w = true /\
  ((exists old new,
       _runout_debouncer w = Some old /\ _runout_debouncer w' = Some new /\
       value old = true /\ value new = false) \/
   (exists old new,
       _jam_debouncer w = Some old /\ _jam_debouncer w' = Some new /\
       value old = false /\ value new = true)).
Proof.
  intros Htick Hcalled. split.
  { destruct (_print_running w) eqn:Hrun; [reflexivity|].
    destruct (tick_closed_gate env w r w' Htick Hrun) as [_ Hsame]. lia. }
  rewrite tick_eq in Htick.
  destruct (poll_runout env w) as [[b1 | e1] w1] eqn:E1.
  2:{ inversion Htick; subst.
      destruct (poll_runout_facts _ _ _ _ E1) as (_ & _ & _ & _ & Hp & _). lia. }
  destruct (poll_runout_facts _ _ _ _ E1)
    as (_ & _ & Hj1 & _ & Hp1 & _ & _ & _ & Htr1).
  destruct (poll_jam env w1) as [[b2 | e2] w2] eqn:E2.
  2:{ inversion Htick; subst.
      destruct (poll_jam_facts _ _ _ _ E2) as (_ & _ & _ & _ & Hp & _). lia. }
  destruct (poll_jam_facts _ _ _ _ E2)
    as (_ & _ & Hr2 & _ & Hp2 & _ & _ & _ & Htr2).
  assert (Hkeep : _runout_debouncer w' = _runout_debouncer w2 /\
                  _jam_debouncer w' = _jam_debouncer w2 /\
                  (b1 = false -> b2 = false ->
                   count is_printer_call (trace w') =
                   count is_printer_call (trace w2))).
  { destruct (when b1 (runout_handler env) w2) as [[u3 | e3] w3] eqn:E3.
    - destruct (when_handler_no_sampling b1 _ (runout_handler_no_sampling env)
                  _ _ _ E3) as (Hr3 & Hj3 & _).
      destruct (when b2 (jam_handler env) w3) as [[u4 | e4] w4] eqn:E4;
        destruct (when_handler_no_sampling b2 _ (jam_handler_no_sampling env)
                    _ _ _ E4) as (Hr4 & Hj4 & _);
        inversion Htick; subst; simpl;
        (split; [congruence | split; [congruence |]]);
        intros -> ->; simpl in E3, E4; inversion E3; inversion E4; subst;
        try discriminate; simpl; rewrite ?count_cons; reflexivity.
    - destruct (when_handler_no_sampling b1 _ (runout_handler_no_sampling env)
                  _ _ _ E3) as (Hr3 & Hj3 & _).
      inversion Htick; subst.
      split; [congruence | split; [congruence |]].
      intros -> _. simpl in E3. inversion E3. }
  destruct Hkeep as (Hr' & Hj' & Hquiet).
  destruct b1.
  - left. destruct (Htr1 eq_refl) as (old & new & Ho & Hn & Hvo & Hvn).
    exists old, new. repeat split; try assumption. congruence.
  - destruct b2.
    + right. destruct (Htr2 eq_refl) as (old & new & Ho & Hn & Hvo & Hvn).
      exists old, new. repeat split; try assumption; congruence.
    + rewrite (Hquiet eq_refl eq_refl) in Hcalled. lia.
Qed.

(** * Further properties of the handlers and of the gate *)

(** X8. On an open gate, with a printer that accepts its calls, the two
    actions of a handler are independent: the pause is requested exactly
    when pause-on-trigger is set, the G-code is sent exactly when there is
    some, after the pause; the gate is closed exactly when a pause was
    requested, so without pause-on-trigger every further edge sends the
    G-code again. *)
Theorem handler_actions env w :
  (forall k, printer_ok env k = true) ->
  _print_running w = true ->
  runout_handler env w =
    (Ok tt,
     mkWorld (settings w) (_runout_debouncer w) (_jam_debouncer w)
             (negb (runout_pause_print (settings w)))
             (handler_entries "Out of filament!" "Pausing print."
                (runout_pause_print (settings w))
                "Sending out of filament GCODE" (runout_gcode (settings w))
              ++ trace w)) /\
  jam_handler env w =
    (Ok tt,
     mkWorld (settings w) (_runout_debouncer w) (_jam_debouncer w)
             (negb (jammed_pause_print (settings w)))
             (handler_entries "Filament jammed!" "Pausing print."
                (jammed_pause_print (settings w))
                "Sending jammed GCODE" (jammed_gcode (settings w))
              ++ trace w)).
Proof.
  intros Hok Hrun. destruct w as [s dr dj run tr]. simpl in Hrun. subst run.
  unfold runout_handler, jam_handler, handler_entries, bind, logger_info,
    modify, gets, when, printer_pause_print, printer_commands, printer_call,
    ret.
  simpl. split.
  - destruct (runout_pause_print s); simpl; rewrite ?Hok; simpl;
      destruct (runout_gcode s); simpl; rewrite ?Hok; reflexivity.
  - destruct (jammed_pause_print s); simpl; rewrite ?Hok; simpl;
      destruct (jammed_gcode s); simpl; rewrite ?Hok; reflexivity.
Qed.

(** X9. A pause that the printer refuses leaves the gate open: the
    exception leaves the handler before the gate is closed, and no G-code
    is sent. *)
Theorem refused_pause_leaves_gate_open env w :
  _print_running w = true ->
  printer_ok env (2 + List.length (trace w)) = false ->
  (runout_pause_print (settings w) = true ->
   runout_handler env w =
     (Raise PrinterException,
      push_event EvPausePrint
        (push_event (EvLog INFO "Pausing print.")
           (push_event (EvLog INFO "Out of filament!") w)))) /\
  (jammed_pause_print (settings w) = true ->
   jam_handler env w =
     (Raise PrinterException,
      push_event EvPausePrint
        (push_event (EvLog INFO "Pausing print.")
           (push_event (EvLog INFO "Filament jammed!") w)))).
Proof.
  intros Hrun Hrefused. destruct w as [s dr dj run tr]. simpl in *. subst run.
  unfold runout_handler, jam_handler, bind, logger_info, modify, gets, when,
    printer_pause_print, printer_commands, printer_call, ret.
  simpl. split; intros Hpause; rewrite Hpause; simpl; rewrite Hrefused;
    reflexivity.
Qed.

Lemma on_event_calls env event w :
  (forall k, printer_ok env k = true) ->
  exists w',
    on_event env event w = (Ok tt, w') /\
    _print_running w' =
      (if enables_sensor event then true
       else if disables_sensor event then false else _print_running w) /\
    count is_pause (trace w') = count is_pause (trace w) /\
    count is_commands (trace w') = count is_commands (trace w) /\
    count is_cancel (trace w') =
      (count is_cancel (trace w)
       + match event with
         | PRINT_STARTED =>
             (if runout_sensor w then 1 else 0) + (if jam_sensor w then 1 else 0)
         | _ => 0
         end)%nat.
Proof.
  intros Hok. destruct w as [s dr dj run tr].
  destruct event; run_on_event;
    try (eexists; split; [reflexivity|]; simpl; repeat split; lia).
  sensor_split dr dj;
    repeat first
      [ progress simpl
      | match goal with H : value _ = _ |- _ => rewrite H end
      | rewrite Hok ];
    (eexists; split; [reflexivity|]; simpl; rewrite ?count_cons; simpl;
     repeat split; lia).
Qed.

(** X10. With a printer that accepts its calls, a print-started
    notification calls [cancel_print] once for each sensor that reads
    trouble (twice when the filament is out and jammed) and nothing else
    of the printer; every other notification makes no call at all,
    whatever the sensors read. *)
Theorem on_event_printer_calls env event w :
  (forall k, printer_ok env k = true) ->
  exists w',
    on_event env event w = (Ok tt, w') /\
    _print_running w' =
      (if enables_sensor event then true
       else if disables_sensor event then false else _print_running w) /\
    count is_pause (trace w') = count is_pause (trace w) /\
    count is_commands (trace w') = count is_commands (trace w) /\
    count is_cancel (trace w') =
      (count is_cancel (trace w)
       + match event with
         | PRINT_STARTED =>
             (if runout_sensor w then 1 else 0) + (if jam_sensor w then 1 else 0)
         | _ => 0
         end)%nat.
Proof. apply on_event_calls. Qed.

(** A tick on a runout sensor that reads absent and keeps reading low. *)
Lemma tick_absent_steady env w d :
  _runout_debouncer w = Some d ->
  value d = false ->
  _jam_debouncer w = None ->
  line_level env (line d) (S (List.length (trace w))) = Some false ->
  exists d',
    line d' = line d /\ value d' = false /\
    tick env w =
      (Ok tt,
       push_event EvSleep
         (set_runout_debouncer (Some d')
            (push_event (EvGetValue (line d)) (push_event EvTime w)))).
Proof.
  intros Hd Hv Hj Hread.
  exists (update_body (float_round env) (clock env (List.length (trace w))) false d).
  assert (Hv' : value (update_body (float_round env) (clock env (List.length (trace w))) false d)
                = false).
  { destruct (update_body_value_cases (float_round env) (clock env (List.length (trace w))) false d)
      as [H | H]; congruence. }
  split; [apply update_body_line|]. split; [exact Hv'|].
  rewrite tick_eq, poll_runout_eq, Hd, Hread. cbv zeta.
  rewrite update_body_falling, Hv', Hv. simpl.
  rewrite poll_jam_eq. simpl. rewrite Hj. reflexivity.
Qed.

Lemma loop_absent_steady env (n : nat) :
  forall w d,
    _runout_debouncer w = Some d ->
    value d = false ->
    _jam_debouncer w = None ->
    (forall k, line_level env (line d) k = Some false) ->
    exists w',
      _sensor_thread env n w = (Ok tt, w') /\
      _print_running w' = _print_running w /\
      count is_printer_call (trace w') = count is_printer_call (trace w).
Proof.
  induction n as [| n IH]; intros w d Hd Hv Hj Hlow.
  - exists w. repeat split.
  - destruct (tick_absent_steady env w d Hd Hv Hj (Hlow _))
      as (d' & Hl' & Hv' & Htick).
    rewrite sensor_thread_step, Htick.
    destruct (IH (push_event EvSleep
                    (set_runout_debouncer (Some d')
                       (push_event (EvGetValue (line d)) (push_event EvTime w))))
                 d') as (w' & Hrun & Hg & Hc).
    + reflexivity.
    + exact Hv'.
    + exact Hj.
    + rewrite Hl'. exact Hlow.
    + exists w'. split; [exact Hrun|]. split; [exact Hg|].
      rewrite Hc. simpl. rewrite !count_cons. reflexivity.
Qed.

(** X11. A print resumed while the runout sensor still reads absent goes
    on unnoticed: the resumed notification opens the gate without asking
    the sensor and without calling the printer, and as long as the line
    keeps reading low the poll loop sees no falling edge, so it never
    calls the printer, however many ticks pass. *)
Theorem resumed_without_filament_unnoticed env w d (n : nat) :
  _runout_debouncer w = Some d ->
  value d = false ->
  _jam_debouncer w = None ->
  (forall k, line_level env (line d) k = Some false) ->
  runout_sensor w = true /\
  on_event env PRINT_RESUMED w = (Ok tt, set_print_running true w) /\
  exists w',
    _sensor_thread env n (set_print_running true w) = (Ok tt, w') /\
    _print_running w' = true /\
    count is_printer_call (trace w') = count is_printer_call (trace w).
Proof.
  intros Hd Hv Hj Hlow. split; [|split].
  - unfold runout_sensor. rewrite Hd, Hv. reflexivity.
  - reflexivity.
  - destruct (loop_absent_steady env n (set_print_running true w) d)
      as (w' & Hrun & Hg & Hc); try assumption.
    exists w'. split; [exact Hrun|]. split; [exact Hg | exact Hc].
Qed.

(** * Further properties of the sensor setup *)

Ltac run_setup :=
  unfold _setup_sensor, close_debouncer, Debouncer_new, Debouncer_raw,
    int_setting;
  unfold try_except_OSError, bind, gets, when, modify, ret, raise,
    logger_info, logger_error, gpiod_call, Line_get_value, time_time,
    runout_sensor_enabled, jam_sensor_enabled.


Lemma setup_cases env w r w' :
  _setup_sensor env w = (r, w') ->
  settings w' = settings w /\
  _print_running w' = _print_running w /\
  match r with
  | Ok _ =>
      (if runout_sensor_enabled w
       then (exists d pin,
                _runout_debouncer w' = Some d /\
                runout_pin (settings w) = IntValue pin /\
                line d = mkLine (runout_chip (settings w)) pin /\
                _last_value d = value d) \/
            (_runout_debouncer w' = None /\
             In (EvLog ERROR_LVL "Invalid filament runout sensor configuration")
                (trace w'))
       else _runout_debouncer w' = None) /\
      (if jam_sensor_enabled w
       then (exists d pin,
                _jam_debouncer w' = Some d /\
                jam_pin (settings w) = IntValue pin /\
                line d = mkLine (jam_chip (settings w)) pin /\
                _last_value d = value d) \/
            (_jam_debouncer w' = None /\
             In (EvLog ERROR_LVL "Invalid filament jam sensor configuration")
                (trace w'))
       else _jam_debouncer w' = None)
  | Raise e =>
      (e = OSError /\
       count is_log (trace w') = count is_log (trace w) /\
       exists old,
         (_runout_debouncer w = Some old \/ _jam_debouncer w = Some old) /\
         hd EvSleep (trace w') = EvGpiod (Chip_close (line old))) \/
      ((e = ValueError \/ e = TypeError) /\
       _jam_debouncer w' = None /\
       ((runout_sensor_enabled w = true /\
         _runout_debouncer w' = None /\
         is_int (runout_pin (settings w)) &&
         is_int (runout_switch (settings w)) &&
         is_int (runout_bounce (settings w)) = false) \/
        (jam_sensor_enabled w = true /\
         is_int (jam_pin (settings w)) &&
         is_int (jam_switch (settings w)) &&
         is_int (jam_bounce (settings w)) = false)))
  end.
Proof.
  destruct w as [s dr dj run tr]. run_setup. simpl.
  destruct dr as [dr |], dj as [dj |];
    destruct (negb (String.eqb (runout_chip s) EmptyString)) eqn:Er;
    destruct (negb (String.eqb (jam_chip s) EmptyString)) eqn:Ej;
    repeat first
      [ progress simpl
      | rewrite Er | rewrite Ej
      | match goal with
        | |- context [gpiod_ok env ?k] => destruct (gpiod_ok env k)
        | |- context [line_level env ?l ?k] => destruct (line_level env l k)
        | |- context [match ?v with
                      | IntValue _ => _
                      | IntValueError => _
                      | IntTypeError => _
                      end] => destruct v
        end ];
    intros H; inversion H; subst; clear H; simpl;
    repeat first
      [ split
      | reflexivity
      | solve [ left; eexists; eexists; repeat split; reflexivity ]
      | solve [ right; split; [reflexivity | simpl; auto 30] ]
      | solve [ left; split; [reflexivity|];
                split; [rewrite ?count_cons; simpl; reflexivity|];
                eexists; split; [left; reflexivity | reflexivity] ]
      | solve [ left; split; [reflexivity|];
                split; [rewrite ?count_cons; simpl; reflexivity|];
                eexists; split; [right; reflexivity | reflexivity] ]
      | solve [ right; split; [left; reflexivity | split; [reflexivity|]];
                first [ left; repeat split; reflexivity
                      | right; repeat split; reflexivity ] ]
      | solve [ right; split; [right; reflexivity | split; [reflexivity|]];
                first [ left; repeat split; reflexivity
                      | right; repeat split; reflexivity ] ] ].
Qed.

(** X13. The outcomes of setup, whatever [gpiod] answers and whatever the
    settings hold.  Setup either returns, and then each enabled sensor has
    a settled debouncer on its configured line or has none and the error
    is logged, and each disabled sensor has none; or it raises [OSError],
    which happens only when closing the chip of a debouncer installed
    before fails: then nothing is logged; or it raises the [ValueError]
    or [TypeError] of [int(...)], which happens only when the pin, switch
    or bounce setting of an enabled sensor is not an integer: then no jam
    debouncer is installed, and no runout debouncer either if the setting
    is one of the runout sensor.  The gate and the settings are never
    touched. *)
Theorem setup_outcomes env w r w' :
  _setup_sensor env w = (r, w') ->
  settings w' = settings w /\
  _print_running w' = _print_running w /\
  match r with
  | Ok _ =>
      (if runout_sensor_enabled w
       then (exists d pin,
                _runout_debouncer w' = Some d /\
                runout_pin (settings w) = IntValue pin /\
                line d = mkLine (runout_chip (settings w)) pin /\
                _last_value d = value d) \/
            (_runout_debouncer w' = None /\
             In (EvLog ERROR_LVL "Invalid filament runout sensor configuration")
                (trace w'))
       else _runout_debouncer w' = None) /\
      (if jam_sensor_enabled w
       then (exists d pin,
                _jam_debouncer w' = Some d /\
                jam_pin (settings w) = IntValue pin /\
                line d = mkLine (jam_chip (settings w)) pin /\
                _last_value d = value d) \/
            (_jam_debouncer w' = None /\
             In (EvLog ERROR_LVL "Invalid filament jam sensor configuration")
                (trace w'))
       else _jam_debouncer w' = None)
  | Raise e =>
      (e = OSError /\
       count is_log (trace w') = count is_log (trace w) /\
       exists old,
         (_runout_debouncer w = Some old \/ _jam_debouncer w = Some old) /\
         hd EvSleep (trace w') = EvGpiod (Chip_close (line old))) \/
      ((e = ValueError \/ e = TypeError) /\
       _jam_debouncer w' = None /\
       ((runout_sensor_enabled w = true /\
         _runout_debouncer w' = None /\
         is_int (runout_pin (settings w)) &&
         is_int (runout_switch (settings w)) &&
         is_int (runout_bounce (settings w)) = false) \/
        (jam_sensor_enabled w = true /\
         is_int (jam_pin (settings w)) &&
         is_int (jam_switch (settings w)) &&
         is_int (jam_bounce (settings w)) = false)))
  end.
Proof. apply setup_cases. Qed.

(** X14. A chip that cannot be closed stops the reconfiguration.  If
    closing the chip of the runout debouncer fails, setup raises and the
    state is untouched (both old debouncers stay installed).  If the
    runout chip is closed, or there was none, and closing the chip of the
    jam debouncer fails, setup raises with the runout debouncer already
    removed and the jam debouncer still installed; no sensor is
    reopened. *)
Theorem setup_close_failure env w :
  (forall old,
      _runout_debouncer w = Some old ->
      gpiod_ok env (List.length (trace w)) = false ->
      _setup_sensor env w =
      (Raise OSError, push_event (EvGpiod (Chip_close (line old))) w)) /\
  (forall old,
      _runout_debouncer w = None ->
      _jam_debouncer w = Some old ->
      gpiod_ok env (List.length (trace w)) = false ->
      _setup_sensor env w =
      (Raise OSError, push_event (EvGpiod (Chip_close (line old))) w)) /\
  (forall old_runout old_jam,
      _runout_debouncer w = Some old_runout ->
      _jam_debouncer w = Some old_jam ->
      gpiod_ok env (List.length (trace w)) = true ->
      gpiod_ok env (S (List.length (trace w))) = false ->
      _setup_sensor env w =
      (Raise OSError,
       push_event (EvGpiod (Chip_close (line old_jam)))
         (set_runout_debouncer None
            (push_event (EvGpiod (Chip_close (line old_runout))) w)))).
Proof.
  destruct w as [s dr dj run tr]. simpl. repeat split.
  - intros old -> Hfail. run_setup. simpl. rewrite Hfail. reflexivity.
  - intros old -> -> Hfail. run_setup. simpl. rewrite Hfail. reflexivity.
  - intros o1 o2 -> -> Hok Hfail. run_setup. simpl. rewrite Hok. simpl.
    rewrite Hfail. reflexivity.
Qed.

(** *** Debouncers only for enabled sensors *)

Ltac same_installation_side :=
  first [ intro; repeat split; reflexivity
        | unfold same_installation; intros ? ? ? (? & ? & ?) (? & ? & ?);
          repeat split; congruence ].

Lemma runout_handler_same_installation env :
  respects same_installation (runout_handler env).
Proof.
  unfold runout_handler, printer_pause_print, printer_commands.
  respects_steps same_installation_side.
Qed.

Lemma jam_handler_same_installation env :
  respects same_installation (jam_handler env).
Proof.
  unfold jam_handler, printer_pause_print, printer_commands.
  respects_steps same_installation_side.
Qed.

Lemma on_event_same_installation env event :
  respects same_installation (on_event env event).
Proof.
  unfold on_event, printer_cancel_print.
  respects_steps same_installation_side.
Qed.

Lemma poll_runout_same_installation env :
  respects same_installation (poll_runout env).
Proof.
  intros w r w1 H.
  destruct (poll_runout_facts env w r w1 H) as (Hs & _ & Hj & Hi & _).
  repeat split; congruence.
Qed.

Lemma poll_jam_same_installation env :
  respects same_installation (poll_jam env).
Proof.
  intros w r w1 H.
  destruct (poll_jam_facts env w r w1 H) as (Hs & _ & Hr & Hi & _).
  repeat split; congruence.
Qed.

Lemma tick_same_installation env : respects same_installation (tick env).
Proof.
  unfold tick.
  repeat first [ apply poll_runout_same_installation
               | apply poll_jam_same_installation
               | apply runout_handler_same_installation
               | apply jam_handler_same_installation
               | respects_step same_installation_side ].
Qed.

Lemma same_installation_consistent w w' :
  same_installation w w' -> sensors_consistent w -> sensors_consistent w'.
Proof.
  intros (Hs & Hr & Hj) [Cr Cj].
  unfold sensors_consistent, runout_sensor_enabled, jam_sensor_enabled in *.
  rewrite Hs. split; intros Hsome.
  - apply Cr. intros Hnone. rewrite Hnone in Hr.
    destruct (_runout_debouncer w'); [discriminate Hr | apply Hsome; reflexivity].
  - apply Cj. intros Hnone. rewrite Hnone in Hj.
    destruct (_jam_debouncer w'); [discriminate Hj | apply Hsome; reflexivity].
Qed.

(** X15. Only enabled sensors have a debouncer.  Setup that returns
    establishes it, from any state; every tick of the poll loop, every
    handler and every lifecycle notification keeps it, however they
    end. *)
Theorem debouncers_only_for_enabled_sensors env (c : Call) w r w' :
  run_call env c w = (r, w') ->
  (c = CallSetupSensor -> r = Ok tt -> sensors_consistent w') /\
  (c <> CallSetupSensor -> sensors_consistent w -> sensors_consistent w').
Proof.
  intros Hrun. split.
  - intros -> ->. simpl in Hrun.
    destruct (setup_cases env w _ w' Hrun) as (Hs & _ & Hr & Hj).
    unfold sensors_consistent, runout_sensor_enabled, jam_sensor_enabled in *.
    rewrite Hs. split; intros Hsome.
    + destruct (negb (String.eqb (runout_chip (settings w)) EmptyString));
        [reflexivity | contradiction].
    + destruct (negb (String.eqb (jam_chip (settings w)) EmptyString));
        [reflexivity | contradiction].
  - intros Hc. apply same_installation_consistent.
    destruct c; simpl in Hrun.
    + exact (on_event_same_installation env event w r w' Hrun).
    + exact (runout_handler_same_installation env w r w' Hrun).
    + exact (jam_handler_same_installation env w r w' Hrun).
    + exact (tick_same_installation env w r w' Hrun).
    + contradiction.
Qed.

(** * Status queries and print start *)

Lemma api_get_filament_out w :
  sensors_consistent w ->
  api_get_filament w = "0"%string <-> runout_sensor w = true.
Proof.
  intros [Cr _]. unfold api_get_filament. split.
  - destruct (runout_sensor_enabled w); [|discriminate].
    destruct (runout_sensor w); [reflexivity | discriminate].
  - intros Hout. rewrite Hout.
    rewrite Cr; [reflexivity|].
    unfold runout_sensor in Hout.
    destruct (_runout_debouncer w); discriminate.
Qed.

Lemma api_get_jammed_jammed w :
  sensors_consistent w ->
  api_get_jammed w = "1"%string <-> jam_sensor w = true.
Proof.
  intros [_ Cj]. unfold api_get_jammed. split.
  - destruct (jam_sensor_enabled w); [|discriminate].
    destruct (jam_sensor w); [reflexivity | discriminate].
  - intros Hjam. rewrite Hjam.
    rewrite Cj; [reflexivity|].
    unfold jam_sensor in Hjam.
    destruct (_jam_debouncer w); discriminate.
Qed.

(** X16. The status queries and the print start agree.  In a state where
    only enabled sensors have a debouncer, and with a printer that
    accepts its calls, a print-started notification cancels the print
    exactly when the filament query answers "0" (out of filament) or the
    jam query answers "1" (jammed). *)
Theorem print_start_agrees_with_status env w :
  (forall k, printer_ok env k = true) ->
  sensors_consistent w ->
  exists w',
    on_event env PRINT_STARTED w = (Ok tt, w') /\
    ((count is_cancel (trace w) < count is_cancel (trace w'))%nat <->
     (api_get_filament w = "0"%string \/ api_get_jammed w = "1"%string)).
Proof.
  intros Hok Hcons.
  destruct (on_event_calls env PRINT_STARTED w Hok)
    as (w' & Hrun & _ & _ & _ & Hcancel).
  exists w'. split; [exact Hrun|].
  rewrite (api_get_filament_out w Hcons), (api_get_jammed_jammed w Hcons).
  rewrite Hcancel.
  destruct (runout_sensor w), (jam_sensor w); split; intros H;
    try lia; try (left; reflexivity); try (right; reflexivity);
    destruct H as [H | H]; discriminate H.
Qed.

(** X17. A plugin whose two chip settings are empty, as in the default
    settings, does nothing with the sensors: setup makes no [gpiod] call
    and installs no debouncer, both status queries answer "-1", and a
    print start is not cancelled. *)
Theorem unconfigured_plugin_is_inert env s :
  runout_chip s = EmptyString ->
  jam_chip s = EmptyString ->
  exists w',
    _setup_sensor env (plugin_init s) = (Ok tt, w') /\
    _runout_debouncer w' = None /\ _jam_debouncer w' = None /\
    trace w' = [EvLog INFO "Filament jam sensor not configured";
                EvLog INFO "Filament runout sensor not configured"] /\
    api_get_filament w' = "-1"%string /\
    api_get_jammed w' = "-1"%string /\
    on_event env PRINT_STARTED w' = (Ok tt, set_print_running true w').
Proof.
  intros Hr Hj. run_setup. unfold plugin_init.
  repeat (progress (simpl; rewrite ?Hr, ?Hj)).
  eexists. split; [reflexivity|]. simpl.
  unfold api_get_filament, api_get_jammed, runout_sensor_enabled,
    jam_sensor_enabled. simpl. rewrite Hr, Hj. simpl.
  repeat split; reflexivity.
Qed.

(** * Concrete instances of the further properties *)

(** X1 on a run: the line alternates on every sample. *)
Lemma bouncing_line_never_commits_witness :
  (forall a, a <= interval one_second_debouncer ->
             round_double a <= interval one_second_debouncer) /\
  0 <= interval one_second_debouncer /\
  never_held (interval one_second_debouncer)
             (_last_value one_second_debouncer)
             (_last_change_time one_second_debouncer) bouncing_calls /\
  Forall (fun s' => value s' = value one_second_debouncer /\ edge s' = false)
         (run_updates round_double bouncing_calls one_second_debouncer).
Proof.
  assert (Hround : forall a, a <= interval one_second_debouncer ->
                   round_double a <= interval one_second_debouncer).
  { intros a. apply (round_double_le 1). split; [discriminate | reflexivity]. }
  assert (Hpos : 0 <= interval one_second_debouncer) by (vm_compute; discriminate).
  assert (Hheld : never_held (interval one_second_debouncer)
                    (_last_value one_second_debouncer)
                    (_last_change_time one_second_debouncer) bouncing_calls)
    by exact I.
  split; [exact Hround|]. split; [exact Hpos|]. split; [exact Hheld|].
  exact (bouncing_line_never_commits round_double bouncing_calls
           one_second_debouncer Hround Hpos Hheld).
Defined.

Lemma held_calls_low : forall t r', In (t, r') held_calls -> r' = false.
Proof.
  intros t r' Hin. simpl in Hin.
  repeat (destruct Hin as [Hin | Hin]; [inversion Hin; reflexivity|]).
  contradiction.
Defined.

(** X2 on a run: the low level held from 1.5 s on is committed at 3 s,
    with exactly one falling edge. *)
Lemma steady_level_one_edge_witness :
  (forall t r', In (t, r') held_calls -> r' = false) /\
  List.length (filter edge
                 (run_updates round_double held_calls one_second_debouncer))
    = 1%nat /\
  Forall (fun s' => edge s' = true -> rising s' = false /\ falling s' = true)
         (run_updates round_double held_calls one_second_debouncer).
Proof.
  split; [exact held_calls_low|].
  destruct (steady_level_one_edge round_double held_calls false
              one_second_debouncer held_calls_low) as [Hn Hd].
  split; [rewrite Hn; vm_compute; reflexivity | exact Hd].
Defined.

(** X3 on a run: the change recorded at 1 s is committed by the updates
    whose float difference to 1 s exceeds one second. *)
Lemma held_change_commits_witness :
  false <> _last_value one_second_debouncer /\
  (forall t r', In (t, r') held_calls -> r' = false) /\
  Forall2 (fun call s' =>
             _last_change_time s' = 1 /\
             (interval one_second_debouncer < round_double (fst call - 1) ->
              value s' = false))
          held_calls
          (run_updates round_double held_calls
             (update_body round_double 1 false one_second_debouncer)).
Proof.
  assert (Hne : false <> _last_value one_second_debouncer)
    by (simpl; discriminate).
  split; [exact Hne|]. split; [exact held_calls_low|].
  exact (proj1 (held_change_commits round_double one_second_debouncer 1 false
                  held_calls Hne held_calls_low)).
Defined.

(** X4 on a run of three iterations with one sensor. *)
Lemma sensor_thread_counts_witness :
  _sensor_thread working_env 3 printing_world =
    (Ok tt, snd (_sensor_thread working_env 3 printing_world)) /\
  count is_sleep (trace (snd (_sensor_thread working_env 3 printing_world)))
    = 3%nat /\
  count is_get_value (trace (snd (_sensor_thread working_env 3 printing_world)))
    = 3%nat.
Proof.
  assert (Hrun : _sensor_thread working_env 3 printing_world =
                 (Ok tt, snd (_sensor_thread working_env 3 printing_world)))
    by (vm_compute; reflexivity).
  split; [exact Hrun|].
  destruct (sensor_thread_counts working_env 3 printing_world _ Hrun)
    as (_ & _ & Hs & Hg & _).
  split; [exact Hs | exact Hg].
Defined.

(** X5 on a run: a plugin that has not been set up. *)
Lemma sensor_thread_without_sensors_witness :
  _runout_debouncer (plugin_init runout_settings) = None /\
  _jam_debouncer (plugin_init runout_settings) = None /\
  _sensor_thread unreadable_env 2 (plugin_init runout_settings) =
    (Ok tt, mkWorld runout_settings None None false [EvSleep; EvSleep]).
Proof.
  split; [reflexivity|]. split; [reflexivity|].
  exact (sensor_thread_without_sensors unreadable_env 2
           (plugin_init runout_settings) eq_refl eq_refl).
Defined.

(** X6 on a run: the filament runs out while no print is running. *)
Lemma idle_loop_never_calls_printer_witness :
  _print_running idle_world = false /\
  value (match _runout_debouncer
                 (snd (_sensor_thread working_env 3 idle_world)) with
         | Some d => d
         | None => negative_interval_debouncer
         end) = false /\
  _print_running (snd (_sensor_thread working_env 3 idle_world)) = false /\
  count is_printer_call (trace (snd (_sensor_thread working_env 3 idle_world)))
    = 0%nat.
Proof.
  split; [reflexivity|]. split; [vm_compute; reflexivity|].
  exact (idle_loop_never_calls_printer working_env 3 idle_world
           (fst (_sensor_thread working_env 3 idle_world))
           (snd (_sensor_thread working_env 3 idle_world))
           eq_refl (surjective_pairing _)).
Defined.

(** X7 on a run: the pause of a tick comes with a falling runout edge. *)
Lemma printer_called_only_on_transition_witness :
  (count is_printer_call (trace printing_world_no_debounce)
   < count is_printer_call
       (trace (snd (tick working_env printing_world_no_debounce))))%nat /\
  _print_running printing_world_no_debounce = true /\
  ((exists old new,
       _runout_debouncer printing_world_no_debounce = Some old /\
       _runout_debouncer (snd (tick working_env printing_world_no_debounce))
         = Some new /\
       value old = true /\ value new = false) \/
   (exists old new,
       _jam_debouncer printing_world_no_debounce = Some old /\
       _jam_debouncer (snd (tick working_env printing_world_no_debounce))
         = Some new /\
       value old = false /\ value new = true)).
Proof.
  assert (Hcalled :
            (count is_printer_call (trace printing_world_no_debounce)
             < count is_printer_call
                 (trace (snd (tick working_env printing_world_no_debounce))))%nat)
    by (vm_compute; apply Nat.le_refl).
  split; [exact Hcalled|].
  exact (printer_called_only_on_transition working_env
           printing_world_no_debounce _ _ (surjective_pairing _) Hcalled).
Defined.

(** X8 on a run: G-code without pause, the gate stays open. *)
Lemma handler_actions_witness :
  (forall k, printer_ok working_env k = true) /\
  _print_running gcode_world = true /\
  runout_handler working_env gcode_world =
    (Ok tt,
     mkWorld gcode_settings (Some one_second_debouncer) None true
             [EvCommands ["M600"%string];
              EvLog INFO "Sending out of filament GCODE";
              EvLog INFO "Out of filament!"]).
Proof.
  split; [intros k; reflexivity|]. split; [reflexivity|].
  exact (proj1 (handler_actions working_env gcode_world
                  (fun k => eq_refl) eq_refl)).
Defined.

(** X9 on a run. *)
Lemma refused_pause_leaves_gate_open_witness :
  _print_running printing_world = true /\
  printer_ok printer_down_env (2 + List.length (trace printing_world)) = false /\
  runout_pause_print (settings printing_world) = true /\
  fst (runout_handler printer_down_env printing_world) = Raise PrinterException /\
  _print_running (snd (runout_handler printer_down_env printing_world)) = true.
Proof.
  split; [reflexivity|]. split; [reflexivity|]. split; [reflexivity|].
  rewrite (proj1 (refused_pause_leaves_gate_open printer_down_env
                    printing_world eq_refl eq_refl) eq_refl).
  split; reflexivity.
Defined.

(** X10 on a run: out of filament and jammed, two cancels. *)
Lemma on_event_printer_calls_witness :
  (forall k, printer_ok working_env k = true) /\
  exists w',
    on_event working_env PRINT_STARTED out_and_jammed_world = (Ok tt, w') /\
    _print_running w' = true /\
    count is_cancel (trace w') = 2%nat.
Proof.
  split; [intros k; reflexivity|].
  destruct (on_event_printer_calls working_env PRINT_STARTED
              out_and_jammed_world (fun k => eq_refl))
    as (w' & Hrun & Hgate & _ & _ & Hcancel).
  exists w'. split; [exact Hrun|]. split; [exact Hgate | exact Hcancel].
Defined.

(** X11 on a run of five ticks after the resume. *)
Lemma resumed_without_filament_unnoticed_witness :
  runout_sensor out_of_filament_world = true /\
  on_event working_env PRINT_RESUMED out_of_filament_world =
    (Ok tt, set_print_running true out_of_filament_world) /\
  exists w',
    _sensor_thread working_env 5 (set_print_running true out_of_filament_world)
      = (Ok tt, w') /\
    _print_running w' = true /\
    count is_printer_call (trace w') =
      count is_printer_call (trace out_of_filament_world).
Proof.
  exact (resumed_without_filament_unnoticed working_env out_of_filament_world
           (mkDebouncer gpio4 1 false false false false 0) 5
           eq_refl eq_refl eq_refl (fun k => eq_refl)).
Defined.


(** X13 on a run: [gpiod] works, the pin setting is not a number. *)
Lemma setup_outcomes_witness :
  _setup_sensor high_env (plugin_init bad_pin_settings) =
    (Raise ValueError,
     snd (_setup_sensor high_env (plugin_init bad_pin_settings))) /\
  _runout_debouncer
    (snd (_setup_sensor high_env (plugin_init bad_pin_settings))) = None /\
  trace (snd (_setup_sensor high_env (plugin_init bad_pin_settings))) =
    [EvGpiod (Chip_open "gpiochip0")].
Proof.
  assert (Hrun : _setup_sensor high_env (plugin_init bad_pin_settings) =
                 (Raise ValueError,
                  snd (_setup_sensor high_env (plugin_init bad_pin_settings))))
    by (vm_compute; reflexivity).
  split; [exact Hrun|].
  destruct (setup_outcomes high_env (plugin_init bad_pin_settings) _ _ Hrun)
    as (_ & _ & [(He & _) | (_ & _ & [(_ & Hnone & _) | (Hjam & _)])]).
  - discriminate He.
  - split; [exact Hnone | reflexivity].
  - discriminate Hjam.
Defined.

(** X14 on a run: the chip of the installed runout debouncer cannot be
    closed. *)
Lemma setup_close_failure_witness :
  _runout_debouncer printing_world = Some one_second_debouncer /\
  gpiod_ok gpiod_down_env (List.length (trace printing_world)) = false /\
  _setup_sensor gpiod_down_env printing_world =
    (Raise OSError,
     push_event (EvGpiod (Chip_close gpio4)) printing_world).
Proof.
  split; [reflexivity|]. split; [reflexivity|].
  exact (proj1 (setup_close_failure gpiod_down_env printing_world)
               one_second_debouncer eq_refl eq_refl).
Defined.

Lemma printing_world_consistent : sensors_consistent printing_world.
Proof. split; intros H; [reflexivity | exfalso; apply H; reflexivity]. Defined.

Lemma out_of_filament_world_consistent :
  sensors_consistent out_of_filament_world.
Proof. split; intros H; [reflexivity | exfalso; apply H; reflexivity]. Defined.

(** X15 on a run: a tick keeps the debouncers with the enabled sensors. *)
Lemma debouncers_only_for_enabled_sensors_witness :
  CallTick <> CallSetupSensor /\
  sensors_consistent printing_world /\
  sensors_consistent (snd (tick working_env printing_world)).
Proof.
  assert (Hc : CallTick <> CallSetupSensor) by discriminate.
  split; [exact Hc|]. split; [exact printing_world_consistent|].
  exact (proj2 (debouncers_only_for_enabled_sensors working_env CallTick
                  printing_world _ _ (surjective_pairing _))
               Hc printing_world_consistent).
Defined.

(** X16 on a run: the query says out of filament, the start is
    cancelled. *)
Lemma print_start_agrees_with_status_witness :
  (forall k, printer_ok working_env k = true) /\
  sensors_consistent out_of_filament_world /\
  api_get_filament out_of_filament_world = "0"%string /\
  exists w',
    on_event working_env PRINT_STARTED out_of_filament_world = (Ok tt, w') /\
    (count is_cancel (trace out_of_filament_world)
     < count is_cancel (trace w'))%nat.
Proof.
  split; [intros k; reflexivity|].
  split; [exact out_of_filament_world_consistent|].
  split; [reflexivity|].
  destruct (print_start_agrees_with_status working_env out_of_filament_world
              (fun k => eq_refl) out_of_filament_world_consistent)
    as (w' & Hrun & Hiff).
  exists w'. split; [exact Hrun|]. apply Hiff. left. reflexivity.
Defined.

(** X17 on the default settings. *)
Lemma unconfigured_plugin_is_inert_witness :
  runout_chip get_settings_defaults = EmptyString /\
  jam_chip get_settings_defaults = EmptyString /\
  exists w',
    _setup_sensor high_env (plugin_init get_settings_defaults) = (Ok tt, w') /\
    api_get_filament w' = "-1"%string /\
    api_get_jammed w' = "-1"%string.
Proof.
  split; [reflexivity|]. split; [reflexivity|].
  destruct (unconfigured_plugin_is_inert high_env get_settings_defaults
              eq_refl eq_refl)
    as (w' & Hrun & _ & _ & _ & Hf & Hj & _).
  exists w'. repeat split; assumption.
Defined.
